(** * atom-latex: the latexmk builder, the save hook and the composer contract

    A shallow embedding of [lib/builders/latexmk.ts] and of the command and
    save wiring of [lib/main.ts], together with the parts of the composer
    that the package's test-suite ([spec/composer-spec.js]) exercises.

    Conventions.
    - A JavaScript string is a [string]: a sequence of code units, each in
      the range 0..255.  Comparison of strings is comparison of code units.
    - A nullable string is an [option string]; JavaScript truthiness of such
      a value is [truthy]: neither [null] nor the empty string.
    - An array of strings is a [list string]; [push] appends at the end.
    - A promise is an [Outcome]: it resolves with a value or is rejected.
    - The log sink [latex.log] is the list of the entries it received, the
      oldest first.
    - Everything reached through an ambient global ([atom.config],
      [latex.process], Node's [path] module, [__dirname]) and the members
      inherited from the base class [Builder] are the fields of the class
      [Platform]. *)

From Stdlib Require Import String Ascii List ZArith Bool Arith Lia DecimalString.
Import ListNotations.

Local Open Scope list_scope.
Local Open Scope string_scope.

(* ================================================================== *)
(** * Strings, arrays and promises as JavaScript has them *)
(* ================================================================== *)

(** The double-quote character, as a one-character string. *)
Definition dq : string := String (ascii_of_nat 34) EmptyString.

(** The template literal that wraps [s] in double quotes. *)
Definition quoted (s : string) : string := (dq ++ s ++ dq)%string.

(** JavaScript truthiness of a string: every string but the empty one. *)
Definition nonEmpty (s : string) : bool :=
  match s with
  | EmptyString => false
  | String _ _ => true
  end.

(** JavaScript truthiness of a nullable string. *)
Definition truthy (v : option string) : bool :=
  match v with
  | None => false
  | Some s => nonEmpty s
  end.

(** [Array.prototype.push] with one argument. *)
Definition push (args : list string) (a : string) : list string :=
  (args ++ [a])%list.

(** [s.endsWith(suffix)]: some tail of [s] is [suffix]. *)
Fixpoint endsWith (suffix s : string) : bool :=
  (s =? suffix)%string
  || match s with
     | EmptyString => false
     | String _ s' => endsWith suffix s'
     end.

(** [s.slice(1, -1)]: drops the first and the last code unit; the empty
    string when [s] has fewer than two. *)
Definition slice_1_m1 (s : string) : string :=
  substring 1 (String.length s - 2) s.

(** [args.join(" ")] *)
Definition join (sep : string) (args : list string) : string :=
  String.concat sep args.

(** [args[args.length - 1] = v] on a non-empty array. *)
Definition setLast (args : list string) (v : string) : list string :=
  (removelast args ++ [v])%list.

(** The decimal rendering of an integer inside a template literal. *)
Definition showInt (z : Z) : string :=
  NilZero.string_of_int (Z.to_int z).

(** A settled promise. *)
Inductive Outcome (A : Type) : Type :=
| Resolved (a : A)
| Rejected (error : string).
Arguments Resolved {A} a.
Arguments Rejected {A} error.

Definition andThen {A B : Type} (p : Outcome A) (k : A -> Outcome B)
  : Outcome B :=
  match p with
  | Resolved a => k a
  | Rejected e => Rejected e
  end.

(* ================================================================== *)
(** * The log sink *)
(* ================================================================== *)

Inductive Level : Type := LError | LWarning | LInfo.

Record LogEntry : Type := mkEntry { level : Level; text : string }.

Definition Log : Type := list LogEntry.

Definition log_error (msg : string) (l : Log) : Log :=
  (l ++ [mkEntry LError msg])%list.
Definition log_warning (msg : string) (l : Log) : Log :=
  (l ++ [mkEntry LWarning msg])%list.
Definition log_info (msg : string) (l : Log) : Log :=
  (l ++ [mkEntry LInfo msg])%list.

(* ================================================================== *)
(** * JobState, as the builder reads it *)
(* ================================================================== *)

(** The fields behind the accessors of [JobState] that the builder and the
    composer call.  A builder is only handed a state for which
    [canProcess] holds, so [getTexFilePath] is a string. *)
Record JobState : Type := mkJobState {
  getShouldRebuild : bool;
  getJobName : option string;
  getEnableShellEscape : bool;
  getEnableSynctex : bool;
  getEnableExtendedBuildMode : bool;
  getEngine : string;
  getOutputFormat : string;
  getProducer : string;
  getOutputDirectory : string;
  getMoveResultToSourceDirectory : bool;
  getTexFilePath : string;
  getProjectPath : string;
  getOutputFilePath : option string
}.

(** [jobState.setOutputFilePath(p)] *)
Definition setOutputFilePath (p : option string) (j : JobState) : JobState :=
  mkJobState (getShouldRebuild j) (getJobName j) (getEnableShellEscape j)
    (getEnableSynctex j) (getEnableExtendedBuildMode j) (getEngine j)
    (getOutputFormat j) (getProducer j) (getOutputDirectory j)
    (getMoveResultToSourceDirectory j) (getTexFilePath j) (getProjectPath j)
    p.

(* ================================================================== *)
(** * The ambient platform *)
(* ================================================================== *)

Record ProcessResult : Type := mkProcessResult {
  statusCode : Z;
  stdout : string;
  stderr : string
}.

Record ChildProcessOptions : Type := mkOptions {
  cwd : option string;
  env : list (string * Z)
}.

Class Platform : Type := {
  (** [path.resolve(...segments)] *)
  path_resolve : list string -> string;
  (** [path.relative(from, to)] *)
  path_relative : string -> string -> string;
  (** [__dirname] of the module [lib/builders/latexmk] *)
  module_dirname : string;
  (** [atom.config.get("latex.useRelativePaths")] *)
  config_useRelativePaths : bool;
  (** [Builder.prototype.constructChildProcessOptions] *)
  constructChildProcessOptions :
    string -> list (string * Z) -> ChildProcessOptions;
  (** [latex.process.executeChildProcess] *)
  executeChildProcess :
    string -> ChildProcessOptions -> Outcome ProcessResult;
  (** [Builder.prototype.logStatusCode], the handler of the base class *)
  super_logStatusCode : Z -> string -> Log -> Log
}.

(* ================================================================== *)
(** * lib/builders/latexmk.ts *)
(* ================================================================== *)

(** [/^latex|u?platex$/]: either the engine starts with [latex], or it ends
    with [platex] preceded by an optional [u]. *)
Definition LATEX_PATTERN (engine : string) : bool :=
  prefix "latex" engine
  || endsWith "uplatex" engine
  || endsWith "platex" engine.

(** [/^(xelatex|lualatex)$/] *)
Definition PDF_ENGINE_PATTERN (engine : string) : bool :=
  (engine =? "xelatex")%string || (engine =? "lualatex")%string.

Definition LATEXMK_MINIMUM_VERSION : string := "4.37".

Definition executable : string := "latexmk".

Definition constructPdfProducerArgs (jobState : JobState) : string :=
  let producer := getProducer jobState in
  if (producer =? "ps2pdf")%string then "-pdfps"
  else if (producer =? "dvipdf")%string then
    ("-pdfdvi -e " ++ dq ++ "$dvipdf = 'dvipdf %O %S %D';" ++ dq)%string
  else
    ("-pdfdvi -e " ++ dq ++ "$dvipdf = '" ++ producer ++ " %O -o %D %S';"
       ++ dq)%string.

Definition constructArgs `{Platform} (jobState : JobState) : list string :=
  let args :=
    ["-interaction=nonstopmode"; "-f"; "-cd"; "-file-line-error"] in
  let args :=
    if getShouldRebuild jobState then push args "-g" else args in
  let args :=
    match getJobName jobState with
    | Some name =>
        if nonEmpty name
        then push args ("-jobname=" ++ quoted name)%string
        else args
    | None => args
    end in
  let args :=
    if getEnableShellEscape jobState then push args "-shell-escape"
    else args in
  let args :=
    if getEnableSynctex jobState then push args "-synctex=1" else args in
  let args :=
    if getEnableExtendedBuildMode jobState then
      let latexmkrcPath :=
        path_resolve [module_dirname; ".."; ".."; "resources"; "latexmkrc"] in
      push args ("-r " ++ quoted latexmkrcPath)%string
    else args in
  let args :=
    if LATEX_PATTERN (getEngine jobState) then
      let args := push args ("-latex=" ++ quoted (getEngine jobState))%string in
      push args
        (if (getOutputFormat jobState =? "pdf")%string
         then constructPdfProducerArgs jobState
         else ("-" ++ getOutputFormat jobState)%string)
    else if (getOutputFormat jobState =? "pdf")%string
            && PDF_ENGINE_PATTERN (getEngine jobState)
    then push args ("-" ++ getEngine jobState)%string
    else
      let args :=
        if negb (getEngine jobState =? "pdflatex")%string
        then push args ("-pdflatex=" ++ quoted (getEngine jobState))%string
        else args in
      push args ("-" ++ getOutputFormat jobState)%string in
  let args :=
    if nonEmpty (getOutputDirectory jobState)
    then push args ("-outdir=" ++ quoted (getOutputDirectory jobState))%string
    else args in
  push args (quoted (getTexFilePath jobState)).

(** [execLatexmk] assigns to the last slot of the array it was given, so its
    caller sees the change: the array as it is afterwards is returned next
    to the result of the process.  Reading the last element of an empty
    array yields [undefined], and calling [slice] on it throws. *)
Definition execLatexmk `{Platform} (directoryPath : string)
    (args : list string) : Outcome (list string * ProcessResult) :=
  let options :=
    constructChildProcessOptions directoryPath [("max_print_line", 1000%Z)] in
  let rewritten : Outcome (list string) :=
    if config_useRelativePaths && truthy (cwd options) then
      match cwd options, args with
      | Some dir, _ :: _ =>
          let absPath := slice_1_m1 (last args EmptyString) in
          let relPath := path_relative dir absPath in
          Resolved (setLast args (quoted relPath))
      | _, _ =>
          Rejected "TypeError: Cannot read property 'slice' of undefined"
      end
    else Resolved args in
  andThen rewritten (fun args =>
    let command := (executable ++ " " ++ join " " args)%string in
    andThen (executeChildProcess command options) (fun result =>
      Resolved (args, result))).

Definition logStatusCode `{Platform} (code : Z) (err : string) (l : Log)
  : Log :=
  if (code =? 10)%Z then
    log_error "latexmk: Bad command line arguments." l
  else if (code =? 11)%Z then
    log_error
      "latexmk: File specified on command line not found or other file not found."
      l
  else if (code =? 12)%Z then
    log_error "latexmk: Failure in some part of making files." l
  else if (code =? 13)%Z then
    log_error "latexmk: error in initialization file." l
  else if (code =? 20)%Z then
    log_error "latexmk: probable bug or retcode from called program." l
  else super_logStatusCode code err l.

(** [run] threads the log: it returns the settled promise and the log as it
    is when the promise settles. *)
Definition run `{Platform} (jobState : JobState) (l : Log)
  : Outcome Z * Log :=
  let args := constructArgs jobState in
  match execLatexmk (getProjectPath jobState) args with
  | Rejected e => (Rejected e, l)
  | Resolved (_, result) =>
      let l :=
        if negb (statusCode result =? 0)%Z
        then logStatusCode (statusCode result) (stderr result) l
        else l in
      (Resolved (statusCode result), l)
  end.

(** ** The version probe *)

(** The class [\s] on code units below 256: tab, line feed, vertical tab,
    form feed, carriage return, space and no-break space. *)
Definition isSpace (c : ascii) : bool :=
  let n := nat_of_ascii c in
  (n =? 9)%nat || (n =? 10)%nat || (n =? 11)%nat || (n =? 12)%nat
  || (n =? 13)%nat || (n =? 32)%nat || (n =? 160)%nat.

(** Case folding of the flag [i]: only the letters A..Z and a..z are
    identified with each other. *)
Definition foldCase (c : ascii) : ascii :=
  let n := nat_of_ascii c in
  if (65 <=? n)%nat && (n <=? 90)%nat then ascii_of_nat (n + 32) else c.

(** When [s] starts with [p] up to the case of letters, what follows. *)
Fixpoint stripPrefixCI (p s : string) : option string :=
  match p with
  | EmptyString => Some s
  | String a p' =>
      match s with
      | EmptyString => None
      | String b s' =>
          if (foldCase a =? foldCase b)%char then stripPrefixCI p' s'
          else None
      end
  end.

Fixpoint takeWhile (f : ascii -> bool) (s : string) : string :=
  match s with
  | EmptyString => EmptyString
  | String c s' => if f c then String c (takeWhile f s') else EmptyString
  end.

Fixpoint dropWhile (f : ascii -> bool) (s : string) : string :=
  match s with
  | EmptyString => EmptyString
  | String c s' => if f c then dropWhile f s' else s
  end.

(** A match of [/Version\s+(\S+)/i] that starts at the first code unit of
    [s]: the word, the longest run of white space (at least one), and the
    longest run of anything else (at least one), which is the group. *)
Definition versionAt (s : string) : option string :=
  match stripPrefixCI "Version" s with
  | None => None
  | Some rest =>
      match rest with
      | EmptyString => None
      | String c _ =>
          if isSpace c then
            let group :=
              takeWhile (fun c => negb (isSpace c)) (dropWhile isSpace rest) in
            if nonEmpty group then Some group else None
          else None
      end
  end.

(** [stdout.match(LATEXMK_VERSION_PATTERN)], reduced to the group of the
    leftmost match, which is all the caller reads. *)
Fixpoint LATEXMK_VERSION_PATTERN (s : string) : option string :=
  match versionAt s with
  | Some group => Some group
  | None =>
      match s with
      | EmptyString => None
      | String _ s' => LATEXMK_VERSION_PATTERN s'
      end
  end.

Definition checkRuntimeDependencies `{Platform} (l : Log)
  : Outcome unit * Log :=
  match execLatexmk "." ["-v"] with
  | Rejected e => (Rejected e, l)
  | Resolved (_, result) =>
      if negb (statusCode result =? 0)%Z then
        (Resolved tt,
         log_error
           ("latexmk check failed with code " ++ showInt (statusCode result)
              ++ " and response of " ++ dq ++ stderr result ++ dq ++ ".")%string
           l)
      else
        match LATEXMK_VERSION_PATTERN (stdout result) with
        | None =>
            (Resolved tt,
             log_warning
               ("latexmk check succeeded but with an unknown version response of "
                  ++ dq ++ stdout result ++ dq ++ ".")%string
               l)
        | Some version =>
            if String.ltb version LATEXMK_MINIMUM_VERSION then
              (Resolved tt,
               log_warning
                 ("latexmk check succeeded but with a version of " ++ version
                    ++ dq ++ ". " ++ "Minimum version required is "
                    ++ LATEXMK_MINIMUM_VERSION ++ ".")%string
                 l)
            else
              (Resolved tt,
               log_info
                 ("latexmk check succeeded. Found version " ++ version
                    ++ ".")%string
                 l)
        end
  end.

(** The four ways the probe can end, for a process that has settled. *)
Inductive ProbeClass : Type :=
| ProbeFailed
| ProbeUnknownVersion
| ProbeOutdated (version : string)
| ProbeAdequate (version : string).

(* ================================================================== *)
(** * The composer, known here through its tests and its contract *)
(* ================================================================== *)

(** What the composer does to the world, in the order it does it. *)
Inductive Effect : Type :=
| ParseLogAndFdbFiles
| BuilderRun
| EditorSave
| ShowError
| MoveResult (source destination : string)
| OpenerOpen (outputFilePath texFilePath : string) (lineNumber : nat).

(** The builder as the composer sees it: the mock of the tests has the two
    members below; [parseLogAndFdbFiles] writes into the state it is given. *)
Record Builder : Type := mkBuilder {
  builder_run : JobState -> Log -> Outcome Z * Log;
  parseLogAndFdbFiles : JobState -> JobState
}.

(** Node's [path.basename] and [path.join], which the composer calls. *)
Class PathModule : Type := {
  path_basename : string -> string;
  path_join : string -> string -> string
}.

(** Modelled from the spec: [Composer.shouldMoveResult] of [lib/composer],
    which is not part of the listing.  The four tests of
    [describe('shouldMoveResult')] fix it: true only with both the move
    option and an output directory. *)
Definition shouldMoveResult (jobState : JobState) : bool :=
  getMoveResultToSourceDirectory jobState
  && nonEmpty (getOutputDirectory jobState).

(** Modelled from the spec: [Composer.resolveOutputFilePath] of
    [lib/composer], which is not part of the listing (section 4.4.1).
    The result is the returned path (or [null]), the job state as the
    parser left it, and the calls made on the builder. *)
Definition resolveOutputFilePath `{PathModule} (builder : Builder)
    (jobState : JobState) : option string * JobState * list Effect :=
  match getOutputFilePath jobState with
  | Some outputFilePath => (Some outputFilePath, jobState, [])
  | None =>
      let jobState := parseLogAndFdbFiles builder jobState in
      match getOutputFilePath jobState with
      | None => (None, jobState, [ParseLogAndFdbFiles])
      | Some outputFilePath =>
          let outputFilePath :=
            if shouldMoveResult jobState
            then path_join (getProjectPath jobState)
                   (path_basename outputFilePath)
            else outputFilePath in
          (Some outputFilePath, jobState, [ParseLogAndFdbFiles])
      end
  end.

(** ** The settings file *)

Module Properties.
(** The keys of the property bag that [initializeBuildStateFromProperties]
    reads, each absent ([None]) or present with a value of the type the
    tests give it. *)
Record t : Type := mk {
  cleanPatterns : option (list string);
  enableExtendedBuildMode : option bool;
  enableShellEscape : option bool;
  enableSynctex : option bool;
  jobNames : option (list string);
  jobnames : option (list string);
  jobname : option string;
  customEngine : option string;
  engine : option string;
  program : option string;
  moveResultToSourceDirectory : option bool;
  outputFormat : option string;
  format : option string;
  outputDirectory : option string;
  output_directory : option string;
  producer : option string
}.

Definition empty : t :=
  mk None None None None None None None None None None None None None None
     None None.
End Properties.

Module BuildState.
(** Modelled from the spec: the build options of [BuildState]
    ([lib/build-state], not part of the listing), section 3. *)
Record t : Type := mk {
  filePath : string;
  projectPath : string;
  engine : string;
  outputFormat : string;
  producer : string;
  outputDirectory : string;
  jobNames : list (option string);
  enableShellEscape : bool;
  enableSynctex : bool;
  enableExtendedBuildMode : bool;
  cleanPatterns : list string;
  moveResultToSourceDirectory : bool;
  shouldRebuild : bool
}.

Definition setEngine (v : string) (s : t) : t :=
  mk (filePath s) (projectPath s) v (outputFormat s) (producer s)
     (outputDirectory s) (jobNames s) (enableShellEscape s)
     (enableSynctex s) (enableExtendedBuildMode s) (cleanPatterns s)
     (moveResultToSourceDirectory s) (shouldRebuild s).
Definition setOutputFormat (v : string) (s : t) : t :=
  mk (filePath s) (projectPath s) (engine s) v (producer s)
     (outputDirectory s) (jobNames s) (enableShellEscape s)
     (enableSynctex s) (enableExtendedBuildMode s) (cleanPatterns s)
     (moveResultToSourceDirectory s) (shouldRebuild s).
Definition setProducer (v : string) (s : t) : t :=
  mk (filePath s) (projectPath s) (engine s) (outputFormat s) v
     (outputDirectory s) (jobNames s) (enableShellEscape s)
     (enableSynctex s) (enableExtendedBuildMode s) (cleanPatterns s)
     (moveResultToSourceDirectory s) (shouldRebuild s).
Definition setOutputDirectory (v : string) (s : t) : t :=
  mk (filePath s) (projectPath s) (engine s) (outputFormat s) (producer s)
     v (jobNames s) (enableShellEscape s)
     (enableSynctex s) (enableExtendedBuildMode s) (cleanPatterns s)
     (moveResultToSourceDirectory s) (shouldRebuild s).
Definition setJobNames (v : list (option string)) (s : t) : t :=
  mk (filePath s) (projectPath s) (engine s) (outputFormat s) (producer s)
     (outputDirectory s) v (enableShellEscape s)
     (enableSynctex s) (enableExtendedBuildMode s) (cleanPatterns s)
     (moveResultToSourceDirectory s) (shouldRebuild s).
Definition setEnableShellEscape (v : bool) (s : t) : t :=
  mk (filePath s) (projectPath s) (engine s) (outputFormat s) (producer s)
     (outputDirectory s) (jobNames s) v
     (enableSynctex s) (enableExtendedBuildMode s) (cleanPatterns s)
     (moveResultToSourceDirectory s) (shouldRebuild s).
Definition setEnableSynctex (v : bool) (s : t) : t :=
  mk (filePath s) (projectPath s) (engine s) (outputFormat s) (producer s)
     (outputDirectory s) (jobNames s) (enableShellEscape s)
     v (enableExtendedBuildMode s) (cleanPatterns s)
     (moveResultToSourceDirectory s) (shouldRebuild s).
Definition setEnableExtendedBuildMode (v : bool) (s : t) : t :=
  mk (filePath s) (projectPath s) (engine s) (outputFormat s) (producer s)
     (outputDirectory s) (jobNames s) (enableShellEscape s)
     (enableSynctex s) v (cleanPatterns s)
     (moveResultToSourceDirectory s) (shouldRebuild s).
Definition setCleanPatterns (v : list string) (s : t) : t :=
  mk (filePath s) (projectPath s) (engine s) (outputFormat s) (producer s)
     (outputDirectory s) (jobNames s) (enableShellEscape s)
     (enableSynctex s) (enableExtendedBuildMode s) v
     (moveResultToSourceDirectory s) (shouldRebuild s).
Definition setMoveResultToSourceDirectory (v : bool) (s : t) : t :=
  mk (filePath s) (projectPath s) (engine s) (outputFormat s) (producer s)
     (outputDirectory s) (jobNames s) (enableShellEscape s)
     (enableSynctex s) (enableExtendedBuildMode s) (cleanPatterns s)
     v (shouldRebuild s).

(** One job state per job name; it shares every option of the build and
    starts with no output path.  The composer is reached only for a root
    that is a document, so the path of the root is the TeX path. *)
Definition jobStateFor (s : t) (jobName : option string) : JobState :=
  mkJobState (shouldRebuild s) jobName (enableShellEscape s)
    (enableSynctex s) (enableExtendedBuildMode s) (engine s)
    (outputFormat s) (producer s) (outputDirectory s)
    (moveResultToSourceDirectory s) (filePath s) (projectPath s) None.

Definition getJobStates (s : t) : list JobState :=
  map (jobStateFor s) (jobNames s).
End BuildState.

(** An alias that is present with a non-empty value; an empty or absent one
    is passed over. *)
Definition nonEmptyString (v : option string) : option string :=
  match v with
  | Some s => if nonEmpty s then Some s else None
  | None => None
  end.

Definition nonEmptyArray (v : option (list string)) : option (list string) :=
  match v with
  | Some (x :: xs) => Some (x :: xs)
  | _ => None
  end.

(** The first alias of a chain that has a value. *)
Fixpoint firstOf {A : Type} (chain : list (option A)) : option A :=
  match chain with
  | [] => None
  | Some v :: _ => Some v
  | None :: rest => firstOf rest
  end.

(** Applies [set] when the option is given, and keeps the state otherwise. *)
Definition applyOption {A : Type} (v : option A)
    (set : A -> BuildState.t -> BuildState.t) (s : BuildState.t)
  : BuildState.t :=
  match v with
  | Some a => set a s
  | None => s
  end.

(** Modelled from the spec: [Composer.initializeBuildStateFromProperties] of
    [lib/composer], which is not part of the listing (section 4.1, layer 3).
    Each option is looked up through its chain of aliases, the first
    non-empty one wins, and an option that no alias gives keeps its value.
    The single [jobname] is turned into a one-element sequence, as the third
    test of [describe('initializeBuildStateFromProperties')] expects. *)
Definition initializeBuildStateFromProperties (state : BuildState.t)
    (properties : Properties.t) : BuildState.t :=
  let state :=
    applyOption (nonEmptyArray (Properties.cleanPatterns properties))
      BuildState.setCleanPatterns state in
  let state :=
    applyOption (Properties.enableSynctex properties)
      BuildState.setEnableSynctex state in
  let state :=
    applyOption (Properties.enableShellEscape properties)
      BuildState.setEnableShellEscape state in
  let state :=
    applyOption (Properties.enableExtendedBuildMode properties)
      BuildState.setEnableExtendedBuildMode state in
  let state :=
    applyOption
      (firstOf
         [ nonEmptyArray (Properties.jobNames properties);
           nonEmptyArray (Properties.jobnames properties);
           option_map (fun name => [name])
             (nonEmptyString (Properties.jobname properties)) ])
      (fun names => BuildState.setJobNames (map Some names)) state in
  let state :=
    applyOption
      (firstOf
         [ nonEmptyString (Properties.customEngine properties);
           nonEmptyString (Properties.engine properties);
           nonEmptyString (Properties.program properties) ])
      BuildState.setEngine state in
  let state :=
    applyOption (Properties.moveResultToSourceDirectory properties)
      BuildState.setMoveResultToSourceDirectory state in
  let state :=
    applyOption
      (firstOf
         [ nonEmptyString (Properties.outputFormat properties);
           nonEmptyString (Properties.format properties) ])
      BuildState.setOutputFormat state in
  let state :=
    applyOption
      (firstOf
         [ nonEmptyString (Properties.outputDirectory properties);
           nonEmptyString (Properties.output_directory properties) ])
      BuildState.setOutputDirectory state in
  applyOption (nonEmptyString (Properties.producer properties))
    BuildState.setProducer state.

(** ** The build pipeline *)

(** What [werkzeug.getEditorDetails] reports about the active editor. *)
Record EditorDetails : Type := mkEditorDetails {
  details_filePath : option string;
  details_lineNumber : nat;
  details_isModified : bool
}.

(** The options that [initializeDiCy] sets on the engine for one run; an
    option that is not given is [None]. *)
Record DiCyOptions : Type := mkDiCyOptions {
  severity : string;
  validateCache : option bool;
  loadCache : option bool
}.

(** The DiCy engine as the composer uses it, after the mocks of
    [describe('getDiCy')] and [describe('runDiCy')]: [run] settles with the
    success of the targets it was given, for a root and its options;
    [getTargetPaths] lists what the root produced. *)
Record DiCy : Type := mkDiCy {
  dicy_run : string -> DiCyOptions -> list string -> Outcome bool;
  dicy_getTargetPaths : string -> list string
}.

(** The collaborators of [Composer.build]: the active editor, the
    configuration resolver and the builder registry; and, for the
    alternate backend, the preference [latex.useDicy], the engine, the
    resolution of the root of a document and the targets that a build asks
    of the engine. *)
Record ComposerHost : Type := mkComposerHost {
  getEditorDetails : EditorDetails;
  initializeBuild : string -> bool -> BuildState.t;
  getBuilder : BuildState.t -> option Builder;
  shouldUseDiCy : bool;
  dicy : DiCy;
  resolveRootFilePath : string -> string;
  buildTargets : list string
}.

(** A parameter with the default value [true]. *)
Definition defaultTrue (argument : option bool) : bool :=
  match argument with
  | Some b => b
  | None => true
  end.

(** Modelled from the spec: [Composer.showResult] of [lib/composer], which
    is not part of the listing (section 4.4, step 5): resolve the output
    path, relocate it when asked to, and open it unless [shouldOpenResult]
    is false. *)
Definition showResult `{PathModule} (builder : Builder) (jobState : JobState)
    (details : EditorDetails) (texFilePath : string)
    (shouldOpenResult : bool) : list Effect :=
  match resolveOutputFilePath builder jobState with
  | (None, _, effects) => effects
  | (Some outputFilePath, jobState, effects) =>
      let destination :=
        path_join (getProjectPath jobState) (path_basename outputFilePath) in
      let relocated :=
        if shouldMoveResult jobState
        then [MoveResult outputFilePath destination]
        else [] in
      let target :=
        if shouldMoveResult jobState then destination else outputFilePath in
      (effects ++ relocated ++
       if shouldOpenResult
       then [OpenerOpen target texFilePath (details_lineNumber details)]
       else [])%list
  end.

(** Modelled from the spec: the loop over the job states of
    [Composer.build] (section 4.4, step 5).  A rejected run ends the build
    with the rejection; a run that exits with a code other than 0, or whose
    logs give no output path, is reported with [showError] and the next job
    is taken. *)
Fixpoint buildJobs `{PathModule} (builder : Builder)
    (details : EditorDetails) (texFilePath : string)
    (shouldOpenResult : bool) (jobStates : list JobState) (l : Log)
  : Outcome bool * list Effect * Log :=
  match jobStates with
  | [] => (Resolved true, [], l)
  | jobState :: rest =>
      match builder_run builder jobState l with
      | (Rejected e, l) => (Rejected e, [BuilderRun], l)
      | (Resolved code, l) =>
          let jobState := parseLogAndFdbFiles builder jobState in
          let shown :=
            if negb (code =? 0)%Z then [ShowError]
            else
              match getOutputFilePath jobState with
              | None => [ShowError]
              | Some _ =>
                  showResult builder jobState details texFilePath
                    shouldOpenResult
              end in
          match buildJobs builder details texFilePath shouldOpenResult rest l
          with
          | (result, effects, l) =>
              (result,
               (BuilderRun :: ParseLogAndFdbFiles :: shown ++ effects)%list, l)
          end
      end
  end.

(** Modelled from the spec: what [Composer.initializeDiCy(filePath,
    shouldRebuild, fastLoad)] of [lib/composer] sets up (section 4.4.5 and
    the tests of [describe('getDiCy')]): the root of the document, the
    options of the run, and whether the cache of the engine is cleared. *)
Definition initializeDiCy (host : ComposerHost) (filePath : string)
    (shouldRebuild fastLoad : bool) : string * DiCyOptions * bool :=
  (resolveRootFilePath host filePath,
   mkDiCyOptions "info"
     (if fastLoad then Some false else None)
     (if shouldRebuild then Some false else None),
   shouldRebuild).

(** A side-car file of SyncTeX, [<base>.synctex.gz]. *)
Definition isSyncTeXFile (filePath : string) : bool :=
  endsWith ".synctex.gz" filePath.

(** An option that was not given, or given as true. *)
Definition notExplicitlyFalse (argument : option bool) : bool :=
  match argument with
  | Some false => false
  | _ => true
  end.

(** Modelled from the spec: [Composer.runDiCy(targets, { openResults })] of
    [lib/composer], which is not part of the listing (section 4.4.5 and the
    tests of [describe('runDiCy')]): the engine is run, and only when it
    succeeds and [openResults] is not explicitly false is every target that
    is not a SyncTeX file opened, with the path and the line of the active
    editor. *)
Definition runDiCy (host : ComposerHost) (targets : list string)
    (shouldRebuild : bool) (openResults : option bool)
  : Outcome bool * list Effect :=
  let details := getEditorDetails host in
  match details_filePath details with
  | None => (Resolved false, [])
  | Some filePath =>
      match initializeDiCy host filePath shouldRebuild false with
      | (root, options, _) =>
          match dicy_run (dicy host) root options targets with
          | Rejected e => (Rejected e, [])
          | Resolved success =>
              if success && notExplicitlyFalse openResults then
                (Resolved true,
                 map (fun target =>
                        OpenerOpen target filePath
                          (details_lineNumber details))
                   (filter (fun target => negb (isSyncTeXFile target))
                      (dicy_getTargetPaths (dicy host) root)))
              else (Resolved success, [])
          end
      end
  end.

(** Modelled from the spec: [Composer.build(shouldRebuild,
    shouldOpenResult = true)] of [lib/composer], which is not part of the
    listing.  With the alternate backend selected the build is the run of
    the engine (section 4.4.5), which is asked to open the results as the
    build was; otherwise it is the pipeline of section 4.4, steps 1 to 6. *)
Definition build `{PathModule} (host : ComposerHost) (shouldRebuild : bool)
    (shouldOpenResult : option bool) (l : Log)
  : Outcome bool * list Effect * Log :=
  let shouldOpenResult := defaultTrue shouldOpenResult in
  if shouldUseDiCy host then
    match
      runDiCy host (buildTargets host) shouldRebuild (Some shouldOpenResult)
    with
    | (result, effects) => (result, effects, l)
    end
  else
    let details := getEditorDetails host in
    match details_filePath details with
    | None => (Resolved false, [], l)
    | Some filePath =>
        let state := initializeBuild host filePath shouldRebuild in
        let saved :=
          if details_isModified details then [EditorSave] else [] in
        match getBuilder host state with
        | None => (Resolved false, saved, l)
        | Some builder =>
            match
              buildJobs builder details filePath shouldOpenResult
                (BuildState.getJobStates state) l
            with
            | (result, effects, l) => (result, (saved ++ effects)%list, l)
            end
        end
    end.

(* ================================================================== *)
(** * lib/main.ts *)
(* ================================================================== *)

(** The calls that the commands and the save hook make on the package. *)
Inductive Action : Type :=
| ComposerBuild (shouldRebuild : bool) (shouldOpenResult : option bool)
| CheckRuntime
| ComposerClean
| LogClear
| LogHide
| ComposerKill
| LogShow
| ComposerSync
| LogSync
| LogToggle.


(** Editors are compared by identity. *)
Definition TextEditor : Type := nat.

(** What the save hook reads from [atom] when it fires. *)
Record Workspace : Type := mkWorkspace {
  getActiveTextEditor : option TextEditor;
  config_buildOnSave : bool
}.

(** [editor === activeEditor] *)
Definition isActive (editor : TextEditor) (activeEditor : option TextEditor)
  : bool :=
  match activeEditor with
  | Some active => (editor =? active)%nat
  | None => false
  end.

(** The callback registered with [editor.onDidSave]. *)
Definition onDidSave (workspace : Workspace) (editor : TextEditor)
  : list Action :=
  let activeEditor := getActiveTextEditor workspace in
  if isActive editor activeEditor && config_buildOnSave workspace
  then [ComposerBuild false (Some false)]
  else [].



(* ================================================================== *)
(** * Concrete platforms, states and bags to run the definitions on *)
(* ================================================================== *)

(** The part of a POSIX path before its last slash (if it has one) and the
    part after it. *)
Fixpoint splitLastSlash (s : string) : option string * string :=
  match s with
  | EmptyString => (None, EmptyString)
  | String c s' =>
      match splitLastSlash s' with
      | (Some d, b) => (Some (String c d), b)
      | (None, b) =>
          if (c =? "/")%char then (Some EmptyString, b)
          else (None, String c b)
      end
  end.

Definition posix_basename (s : string) : string := snd (splitLastSlash s).

Definition posix_dirname (s : string) : string :=
  match fst (splitLastSlash s) with
  | Some d => d
  | None => "."
  end.

(** Joins a directory and a name; the directory [.] adds nothing. *)
Definition posix_join (directory name : string) : string :=
  if (directory =? ".")%string || negb (nonEmpty directory) then name
  else (directory ++ "/" ++ name)%string.

(** Resolves segments from left to right; [..] drops the last component. *)
Definition posix_resolve (segments : list string) : string :=
  match segments with
  | [] => "."
  | first :: rest =>
      fold_left
        (fun acc segment =>
           if (segment =? "..")%string then posix_dirname acc
           else (acc ++ "/" ++ segment)%string)
        rest first
  end.

(** The path [to] as seen from [from], when [to] lies below [from]. *)
Definition posix_relative (from to : string) : string :=
  let stem := (from ++ "/")%string in
  if prefix stem to
  then substring (String.length stem) (String.length to) to
  else to.

(** A platform whose process executor settles every command in the same
    given way and whose base class logs one generic error. *)
Definition fixedPlatform (useRelativePaths : bool)
    (settled : Outcome ProcessResult) : Platform :=
  {| path_resolve := posix_resolve;
     path_relative := posix_relative;
     module_dirname := "/pkg/lib/builders";
     config_useRelativePaths := useRelativePaths;
     constructChildProcessOptions :=
       fun directoryPath overrides => mkOptions (Some directoryPath) overrides;
     executeChildProcess := fun _ _ => settled;
     super_logStatusCode :=
       fun code _ l =>
         log_error ("latexmk: failed with status code " ++ showInt code)%string
           l |}.

(** A platform that hands back the command line it was asked to execute. *)
Definition echoPlatform (useRelativePaths : bool) : Platform :=
  {| path_resolve := posix_resolve;
     path_relative := posix_relative;
     module_dirname := "/pkg/lib/builders";
     config_useRelativePaths := useRelativePaths;
     constructChildProcessOptions :=
       fun directoryPath overrides => mkOptions (Some directoryPath) overrides;
     executeChildProcess :=
       fun command _ => Resolved (mkProcessResult 0 command EmptyString);
     super_logStatusCode := fun _ _ l => l |}.

Definition posixPaths : PathModule :=
  {| path_basename := posix_basename; path_join := posix_join |}.

(** A job of [/home/me/thesis/main.tex] with every switch off. *)
Definition plainJob (engine outputFormat : string) : JobState :=
  mkJobState false None false false false engine outputFormat "dvipdfmx"
    EmptyString false "/home/me/thesis/main.tex" "/home/me/thesis" None.

(** The same document with every switch on and the job name [draft]. *)
Definition fullJob (engine outputFormat : string) : JobState :=
  mkJobState true (Some "draft") true true true engine outputFormat "dvipdfmx"
    "build" true "/home/me/thesis/main.tex" "/home/me/thesis" None.

(** A job whose name is the empty string. *)
Definition emptyNameJob : JobState :=
  mkJobState false (Some EmptyString) false false false "pdflatex" "pdf"
    "dvipdfmx" EmptyString false "/home/me/thesis/main.tex" "/home/me/thesis"
    None.

(** The state [new BuildState('gronk.tex')] of the tests, with the options
    at some initial value. *)
Definition gronkState : BuildState.t :=
  BuildState.mk "gronk.tex" "." "pdflatex" "pdf" "dvipdfmx" EmptyString [None]
    false true false [] false false.

(** The bags of the three tests of
    [describe('initializeBuildStateFromProperties')]. *)
Definition firstLevelProperties : Properties.t :=
  Properties.mk (Some ["primary"]) (Some true) (Some true) (Some true)
    (Some ["primary"]) (Some ["secondary"]) (Some "secondary")
    (Some "primary") (Some "secondary") (Some "secondary")
    (Some true) (Some "primary") (Some "secondary")
    (Some "primary") (Some "secondary") (Some "primary").

Definition secondLevelProperties : Properties.t :=
  Properties.mk None None None None
    None (Some ["primary"]) (Some "secondary")
    None (Some "primary") (Some "secondary")
    None None (Some "primary")
    None (Some "primary") None.

Definition thirdLevelProperties : Properties.t :=
  Properties.mk None None None None
    None None (Some "primary")
    None None (Some "primary")
    None None None None None None.

(** The mock builder of [describe('resolveOutputFilePath')]: its parser
    stores the given path, or nothing. *)
Definition mockBuilder (code : Z) (parsed : option string) : Builder :=
  mkBuilder (fun _ l => (Resolved code, l))
    (fun jobState =>
       match parsed with
       | Some p => setOutputFilePath (Some p) jobState
       | None => jobState
       end).

(** The job state of [new BuildState('foo.tex')]. *)
Definition fooJob (outputDirectory : string) (move : bool)
    (outputFilePath : option string) : JobState :=
  mkJobState false None false true false "pdflatex" "pdf" "dvipdfmx"
    outputDirectory move "foo.tex" "." outputFilePath.

(** An engine that settles every run with the given success and produces
    the PDF of the root with its SyncTeX file. *)
Definition mockDiCy (success : bool) : DiCy :=
  mkDiCy (fun _ _ _ => Resolved success)
    (fun root =>
       let base :=
         substring 0 (String.length root - 4) root in
       [(base ++ ".pdf")%string; (base ++ ".synctex.gz")%string]).

(** A host whose active editor shows [file.tex], unmodified, at line 1, and
    whose builder succeeds and finds [file.pdf]. *)
Definition fileTexHost : ComposerHost :=
  mkComposerHost (mkEditorDetails (Some "file.tex") 1 false)
    (fun filePath shouldRebuild =>
       BuildState.mk filePath "." "pdflatex" "pdf" "dvipdfmx" EmptyString
         [None] false true false [] false shouldRebuild)
    (fun _ => Some (mockBuilder 0 (Some "file.pdf")))
    false (mockDiCy true) (fun filePath => filePath) ["build"].

(** The same editor with [latex.useDicy] on and an engine that succeeds or
    fails as given. *)
Definition fileTexDiCyHost (success : bool) : ComposerHost :=
  mkComposerHost (mkEditorDetails (Some "file.tex") 1 false)
    (fun filePath shouldRebuild =>
       BuildState.mk filePath "." "pdflatex" "pdf" "dvipdfmx" EmptyString
         [None] false true false [] false shouldRebuild)
    (fun _ => None)
    true (mockDiCy success) (fun filePath => filePath) ["build"].

(* ================================================================== *)
(** * Vocabulary of the statements *)
(* ================================================================== *)

(** The flag, when the condition holds; nothing otherwise. *)
Definition whenever (condition : bool) (flag : string) : list string :=
  if condition then [flag] else [].

(** The arguments that depend on the engine and on the output format. *)
Definition engineArgs (jobState : JobState) : list string :=
  let engine := getEngine jobState in
  let outputFormat := getOutputFormat jobState in
  if LATEX_PATTERN engine then
    [ ("-latex=" ++ quoted engine)%string;
      if (outputFormat =? "pdf")%string
      then constructPdfProducerArgs jobState
      else ("-" ++ outputFormat)%string ]
  else if (outputFormat =? "pdf")%string && PDF_ENGINE_PATTERN engine then
    [ ("-" ++ engine)%string ]
  else
    (whenever (negb (engine =? "pdflatex")%string)
       ("-pdflatex=" ++ quoted engine)%string
     ++ [ ("-" ++ outputFormat)%string ])%list.

(** The arguments before those of the engine. *)
Definition leadingArgs `{Platform} (jobState : JobState) : list string :=
  (["-interaction=nonstopmode"; "-f"; "-cd"; "-file-line-error"]
   ++ whenever (getShouldRebuild jobState) "-g"
   ++ match getJobName jobState with
      | Some name =>
          whenever (nonEmpty name) ("-jobname=" ++ quoted name)%string
      | None => []
      end
   ++ whenever (getEnableShellEscape jobState) "-shell-escape"
   ++ whenever (getEnableSynctex jobState) "-synctex=1"
   ++ whenever (getEnableExtendedBuildMode jobState)
        ("-r "
         ++ quoted
              (path_resolve
                 [module_dirname; ".."; ".."; "resources"; "latexmkrc"]))%string
  )%list.

(** The arguments after those of the engine. *)
Definition trailingArgs (jobState : JobState) : list string :=
  (whenever (nonEmpty (getOutputDirectory jobState))
     ("-outdir=" ++ quoted (getOutputDirectory jobState))%string
   ++ [quoted (getTexFilePath jobState)])%list.

(** An argument that names an engine explicitly. *)
Definition isEngineFlag (a : string) : bool :=
  prefix "-latex=" a || prefix "-pdflatex=" a
  || (a =? "-xelatex")%string || (a =? "-lualatex")%string.

(** An argument that sets the job name. *)
Definition isJobNameFlag (a : string) : bool := prefix "-jobname=" a.

(** The options and the command line of a latexmk invocation. *)
Definition latexmkOptions `{Platform} (directoryPath : string)
  : ChildProcessOptions :=
  constructChildProcessOptions directoryPath [("max_print_line", 1000%Z)].

Definition commandLine (args : list string) : string :=
  (executable ++ " " ++ join " " args)%string.

(** What [execLatexmk] does once the arguments are final: it executes the
    command line and hands back the arguments with the result. *)
Definition execute `{Platform} (directoryPath : string) (args : list string)
  : Outcome (list string * ProcessResult) :=
  andThen (executeChildProcess (commandLine args)
             (latexmkOptions directoryPath))
    (fun result => Resolved (args, result)).

(** The outcome of the version probe, read off the result of the process. *)
Definition classifyProbe (result : ProcessResult) : ProbeClass :=
  if negb (statusCode result =? 0)%Z then ProbeFailed
  else
    match LATEXMK_VERSION_PATTERN (stdout result) with
    | None => ProbeUnknownVersion
    | Some version =>
        if String.ltb version LATEXMK_MINIMUM_VERSION
        then ProbeOutdated version
        else ProbeAdequate version
    end.

Definition probeLevel (c : ProbeClass) : Level :=
  match c with
  | ProbeFailed => LError
  | ProbeUnknownVersion => LWarning
  | ProbeOutdated _ => LWarning
  | ProbeAdequate _ => LInfo
  end.

(** ** Reading the patterns as sets of strings *)

(** Every code unit of [s] satisfies [f]. *)
Fixpoint allChars (f : ascii -> bool) (s : string) : bool :=
  match s with
  | EmptyString => true
  | String c s' => f c && allChars f s'
  end.

(** The first code unit of [s] is white space. *)
Definition startsWithSpace (s : string) : bool :=
  match s with
  | EmptyString => false
  | String c _ => isSpace c
  end.

(** ** Versions compared as numbers, to set against the comparison of the
    code *)

(** The value of a decimal digit. *)
Definition digitValue (c : ascii) : option nat :=
  let n := nat_of_ascii c in
  if (48 <=? n)%nat && (n <=? 57)%nat then Some (n - 48) else None.

(** Reads a version as its dot-separated numbers; [current] is the number
    being read. *)
Fixpoint versionNumbers (s : string) (current : nat) : option (list nat) :=
  match s with
  | EmptyString => Some [current]
  | String c s' =>
      if (c =? ".")%char then
        option_map (cons current) (versionNumbers s' 0)
      else
        match digitValue c with
        | Some d => versionNumbers s' (10 * current + d)
        | None => None
        end
  end.

(** Component by component, a missing component counting as 0. *)
Fixpoint numbersBelow (a b : list nat) : bool :=
  match a, b with
  | [], [] => false
  | [], y :: b' => (0 <? y)%nat || ((0 =? y)%nat && numbersBelow [] b')
  | x :: a', [] => false
  | x :: a', y :: b' => (x <? y)%nat || ((x =? y)%nat && numbersBelow a' b')
  end.

(** [a] is an older version than [b], both read as numbers. *)
Definition numericallyBelow (a b : string) : option bool :=
  match versionNumbers a 0, versionNumbers b 0 with
  | Some x, Some y => Some (numbersBelow x y)
  | _, _ => None
  end.

(* ================================================================== *)
(** * lib/main.ts: the life cycle of the package *)
(* ================================================================== *)

(** The members of the class [Latex] ([lib/latex], reached as
    [global.latex]) that [lib/main.ts] uses: its constructor, and
    [log.setMessages], [status.attachStatusBar] and
    [status.detachStatusBar] as changes of the instance. *)
Class LatexClass : Type := {
  Latex : Type;
  new_Latex : Latex;
  log_setMessages : list LogEntry -> Latex -> Latex;
  status_attachStatusBar : nat -> Latex -> Latex;
  status_detachStatusBar : Latex -> Latex
}.

Module Main.

(** What is added to the module's [disposables]. *)
Inductive Disposable : Type :=
| LatexInstance
| CommandRegistration
| SaveObserver
| MarkerObserver.

(** The two pieces of state that the module keeps: [global.latex] and the
    content of [disposables]. *)
Record State `{LatexClass} : Type := mkState {
  global_latex : option Latex;
  disposables : list Disposable
}.
Arguments mkState {_} global_latex disposables.
Arguments global_latex {_} s.
Arguments disposables {_} s.

(** The state when the module is loaded. *)
Definition initial `{LatexClass} : State := mkState None [].

Definition bootstrap `{LatexClass} (s : State) : State :=
  match global_latex s with
  | Some _ => s
  | None => mkState (Some new_Latex) (disposables s ++ [LatexInstance])%list
  end.

(** The argument of [activate]: what [serialize] returned, if anything. *)
Record Serialized : Type := mkSerialized {
  messages : option (list LogEntry)
}.

Definition activate `{LatexClass} (serialized : option Serialized)
    (s : State) : State :=
  let s := bootstrap s in
  let s :=
    match serialized with
    | Some (mkSerialized (Some restored)) =>
        mkState (option_map (log_setMessages restored) (global_latex s))
          (disposables s)
    | _ => s
    end in
  mkState (global_latex s)
    (disposables s ++ [CommandRegistration; SaveObserver; MarkerObserver])%list.

(** [deactivate] disposes of everything in [disposables], in order, starts
    a new collection and deletes [global.latex]; the result holds what was
    disposed of. *)
Definition deactivate `{LatexClass} (s : State) : list Disposable * State :=
  (disposables s, mkState None []).

Definition consumeStatusBar `{LatexClass} (statusBar : nat) (s : State)
  : State :=
  let s := bootstrap s in
  mkState (option_map (status_attachStatusBar statusBar) (global_latex s))
    (disposables s).

(** The callback of the [Disposable] that [consumeStatusBar] returns. *)
Definition statusBarDisposable `{LatexClass} (s : State) : State :=
  match global_latex s with
  | Some latex => mkState (Some (status_detachStatusBar latex)) (disposables s)
  | None => s
  end.

(** The calls that Atom makes on the module. *)
Inductive Call : Type :=
| Activate (serialized : option Serialized)
| Deactivate
| ConsumeStatusBar (statusBar : nat)
| DisposeStatusBar.

Definition step `{LatexClass} (s : State) (c : Call) : State :=
  match c with
  | Activate serialized => activate serialized s
  | Deactivate => snd (deactivate s)
  | ConsumeStatusBar statusBar => consumeStatusBar statusBar s
  | DisposeStatusBar => statusBarDisposable s
  end.

Definition calls `{LatexClass} (cs : list Call) (s : State) : State :=
  fold_left step cs s.

Definition isLatexInstance (d : Disposable) : bool :=
  match d with
  | LatexInstance => true
  | _ => false
  end.

(** How many instances of [Latex] wait in [disposables]. *)
Definition pendingInstances `{LatexClass} (s : State) : nat :=
  List.length (filter isLatexInstance (disposables s)).

End Main.

(** [global.latex] is set exactly when one instance waits in
    [disposables]. *)
Definition registeredOnce `{LatexClass} (s : Main.State) : Prop :=
  Main.pendingInstances s
  = match Main.global_latex s with
    | Some _ => 1
    | None => 0
    end.

(** An instance of [Latex] reduced to its messages and its status bar. *)
Definition plainLatex : LatexClass :=
  {| Latex := list LogEntry * option nat;
     new_Latex := ([], None);
     log_setMessages := fun restored latex => (restored, snd latex);
     status_attachStatusBar := fun bar latex => (fst latex, Some bar);
     status_detachStatusBar := fun latex => (fst latex, None) |}.

(* ================================================================== *)
(** * lib/openers *)
(* ================================================================== *)

(** What the openers read from their surroundings: [process.platform], the
    predicates of [werkzeug], [fs.existsSync], the two configured paths,
    [Opener.prototype.shouldOpenInBackground] and [werkzeug.pathToUri]. *)
Class OpenerHost : Type := {
  process_platform : string;
  isPdfFile : string -> bool;
  isPsFile : string -> bool;
  fs_existsSync : string -> bool;
  config_skimPath : string;
  config_okularPath : string;
  shouldOpenInBackground : bool;
  pathToUri : string -> string -> string
}.

(** [/-g\s/] matches at the first code unit of [s]. *)
Definition dashGAt (s : string) : bool :=
  match s with
  | String a (String b (String c _)) =>
      (a =? "-")%char && (b =? "g")%char && isSpace c
  | _ => false
  end.

(** [s.replace(/-g\s/, "")]: the leftmost match is taken out. *)
Fixpoint replace_dash_g (s : string) : string :=
  match s with
  | EmptyString => EmptyString
  | String a s' =>
      if dashGAt s then
        match s' with
        | String _ (String _ rest) => rest
        | _ => EmptyString
        end
      else String a (replace_dash_g s')
  end.

Module PreviewOpener.

Definition canOpenInBackground : bool := true.

Definition canOpen `{OpenerHost} (filePath : string) : bool :=
  let supportedFile := isPdfFile filePath || isPsFile filePath in
  (process_platform =? "darwin")%string && supportedFile.

(** The command that [open] hands to [executeChildProcess]. *)
Definition open `{OpenerHost} (filePath : string) : string :=
  let command := ("open -g -a Preview.app " ++ quoted filePath)%string in
  if negb shouldOpenInBackground then replace_dash_g command else command.

End PreviewOpener.

Module SkimOpener.

Definition hasSynctex : bool := true.

Definition canOpenInBackground : bool := true.

Definition canOpen `{OpenerHost} (filePath : string) : bool :=
  let supportedFile := isPdfFile filePath in
  let binaryExists := fs_existsSync config_skimPath in
  (process_platform =? "darwin")%string && supportedFile && binaryExists.

End SkimOpener.

Module OkularOpener.

Definition hasSynctex : bool := true.

Definition canOpenInBackground : bool := true.

Definition canOpen `{OpenerHost} (filePath : string) : bool :=
  let supportedFile := isPdfFile filePath in
  let binaryExists := fs_existsSync config_okularPath in
  (process_platform =? "linux")%string && supportedFile && binaryExists.

End OkularOpener.

(** A host on the given platform, where the suffix of a file decides its
    kind and both viewers are installed. *)
Definition hostOn (platform : string) (background : bool) : OpenerHost :=
  {| process_platform := platform;
     isPdfFile := endsWith ".pdf";
     isPsFile := endsWith ".ps";
     fs_existsSync := fun _ => true;
     config_skimPath := "/Applications/Skim.app";
     config_okularPath := "/usr/bin/okular";
     shouldOpenInBackground := background;
     pathToUri :=
       fun filePath hash => ("file://" ++ filePath ++ "#" ++ hash)%string |}.

(** A process that fails to start. *)
Definition brokenPlatform (useRelativePaths : bool) : Platform :=
  fixedPlatform useRelativePaths (Rejected "spawn latexmk ENOENT").

(* ================================================================== *)
(** * Facts about the helpers *)
(* ================================================================== *)

Lemma substring_all_but_last (s t : string) :
  substring 0 (String.length s) (s ++ t) = s.
Proof.
  induction s as [| c s IH]; simpl.
  - destruct t; reflexivity.
  - now rewrite IH.
Qed.

Lemma length_append (s t : string) :
  String.length (s ++ t) = String.length s + String.length t.
Proof. induction s as [| c s IH]; simpl; [reflexivity | now rewrite IH]. Qed.

(** Taking the quotes off a quoted string gives the string back. *)
Lemma slice_quoted (s : string) : slice_1_m1 (quoted s) = s.
Proof.
  unfold slice_1_m1, quoted, dq. simpl.
  rewrite length_append. simpl.
  replace (String.length s + 1 - 1) with (String.length s) by lia.
  apply substring_all_but_last.
Qed.

Lemma setLast_snoc (init : list string) (a v : string) :
  setLast (init ++ [a]) v = (init ++ [v])%list.
Proof. unfold setLast. now rewrite removelast_last. Qed.

(** ** The patterns *)

Lemma prefix_spec (p s : string) :
  prefix p s = true <-> exists t, s = (p ++ t)%string.
Proof.
  revert s. induction p as [| a p IH]; intros s.
  - split; [intros _; now exists s | intros _; now destruct s].
  - destruct s as [| b s]; simpl;
      [split; [discriminate | intros [t Ht]; discriminate] |].
    destruct (ascii_dec a b) as [-> | Hab].
    + rewrite IH. split; intros [t Ht]; exists t; congruence.
    + split; [discriminate | intros [t Ht]; congruence].
Qed.

Lemma endsWith_spec (suffix s : string) :
  endsWith suffix s = true <-> exists t, s = (t ++ suffix)%string.
Proof.
  induction s as [| c s IH]; cbn [endsWith].
  - rewrite orb_false_r, String.eqb_eq. split.
    + intros <-. now exists EmptyString.
    + intros [[| c t] Ht]; simpl in Ht; [congruence | discriminate].
  - rewrite orb_true_iff, String.eqb_eq, IH. split.
    + intros [<- | [t ->]]; [now exists EmptyString | now exists (String c t)].
    + intros [[| c' t] Ht]; simpl in Ht; [now left |].
      right. exists t. congruence.
Qed.

Lemma append_assoc (a b c : string) : ((a ++ b) ++ c = a ++ b ++ c)%string.
Proof. induction a as [| x a IH]; simpl; [reflexivity | now rewrite IH]. Qed.

(** X21. [LATEX_PATTERN] holds exactly of the engines that start with
    [latex] and of those that end with [platex]: each anchor binds one
    alternative only, and the optional [u] adds nothing. *)
Lemma LATEX_PATTERN_spec (engine : string) :
  LATEX_PATTERN engine = true <->
  (exists t, engine = ("latex" ++ t)%string)
  \/ (exists t, engine = (t ++ "platex")%string).
Proof.
  unfold LATEX_PATTERN.
  rewrite !orb_true_iff, prefix_spec, !endsWith_spec. split.
  - intros [[H | [t ->]] | H]; [now left | right | now right].
    exists (t ++ "u")%string. now rewrite append_assoc.
  - intros [H | H]; [now left; left | now right].
Qed.

Lemma span_append (f : ascii -> bool) (s : string) :
  s = (takeWhile f s ++ dropWhile f s)%string.
Proof.
  induction s as [| c s IH]; simpl; [reflexivity |].
  destruct (f c); simpl; [now rewrite <- IH | reflexivity].
Qed.

Lemma takeWhile_all (f : ascii -> bool) (s : string) :
  allChars f (takeWhile f s) = true.
Proof.
  induction s as [| c s IH]; simpl; [reflexivity |].
  destruct (f c) eqn:Hc; simpl; [now rewrite Hc | reflexivity].
Qed.

Lemma dropWhile_stops (f : ascii -> bool) (s : string) :
  match dropWhile f s with
  | EmptyString => True
  | String c _ => f c = false
  end.
Proof.
  induction s as [| c s IH]; simpl; [exact I |].
  destruct (f c) eqn:Hc; [exact IH | exact Hc].
Qed.

Lemma stripPrefixCI_split (p s rest : string) :
  stripPrefixCI p s = Some rest ->
  exists word, s = (word ++ rest)%string
               /\ stripPrefixCI p word = Some EmptyString.
Proof.
  revert s. induction p as [| a p IH]; intros s; simpl.
  - intros [= ->]. now exists EmptyString.
  - destruct s as [| b s]; [discriminate |].
    destruct (foldCase a =? foldCase b)%char eqn:Hab; [| discriminate].
    intros H. destruct (IH _ H) as (word & -> & Hword).
    exists (String b word). simpl. now rewrite Hab.
Qed.

(** A match at the start of [s] is the word, white space, and the group,
    which is as long as it can be. *)
Lemma versionAt_sound (s version : string) :
  versionAt s = Some version ->
  exists word spaces after,
    s = (word ++ spaces ++ version ++ after)%string
    /\ stripPrefixCI "Version" word = Some EmptyString
    /\ nonEmpty spaces = true /\ allChars isSpace spaces = true
    /\ nonEmpty version = true
    /\ allChars (fun c => negb (isSpace c)) version = true
    /\ (after = EmptyString \/ startsWithSpace after = true).
Proof.
  unfold versionAt.
  destruct (stripPrefixCI "Version" s) as [rest |] eqn:Hstrip; [| discriminate].
  destruct (stripPrefixCI_split _ _ _ Hstrip) as (word & -> & Hword).
  destruct rest as [| c rest]; [discriminate |].
  destruct (isSpace c) eqn:Hc; [| discriminate].
  set (all := String c rest).
  destruct (nonEmpty (takeWhile (fun c => negb (isSpace c))
                        (dropWhile isSpace all))) eqn:Hgroup; [| discriminate].
  intros [= <-].
  exists word, (takeWhile isSpace all),
    (dropWhile (fun c => negb (isSpace c)) (dropWhile isSpace all)).
  repeat apply conj; auto using takeWhile_all.
  - f_equal. rewrite <- span_append. apply span_append.
  - subst all. simpl. now rewrite Hc.
  - pose proof (dropWhile_stops (fun c => negb (isSpace c))
                  (dropWhile isSpace all)) as Hstop.
    destruct (dropWhile _ (dropWhile isSpace all)) as [| c' after];
      [now left | right].
    simpl. now apply negb_false_iff.
Qed.

(** The group is that of the leftmost match. *)
Lemma LATEXMK_VERSION_PATTERN_leftmost (s version : string) :
  LATEXMK_VERSION_PATTERN s = Some version ->
  exists before rest,
    s = (before ++ rest)%string /\ versionAt rest = Some version
    /\ forall b r, s = (b ++ r)%string ->
                   String.length b < String.length before ->
                   versionAt r = None.
Proof.
  induction s as [| c s IH].
  - discriminate.
  - cbn [LATEXMK_VERSION_PATTERN].
    destruct (versionAt (String c s)) as [v |] eqn:Hat.
    + intros [= ->]. exists EmptyString, (String c s).
      repeat apply conj; auto. intros b r _ Hlt. inversion Hlt.
    + intros H. destruct (IH H) as (before & rest & -> & Hrest & Hleft).
      exists (String c before), rest. repeat apply conj; auto.
      intros [| c' b] r Heq Hlt; simpl in Heq.
      * now subst r.
      * injection Heq as -> Heq. apply (Hleft b r Heq). simpl in Hlt. lia.
Qed.

(** No result means no match anywhere. *)
Lemma LATEXMK_VERSION_PATTERN_none (s : string) :
  LATEXMK_VERSION_PATTERN s = None ->
  forall b r, s = (b ++ r)%string -> versionAt r = None.
Proof.
  induction s as [| c s IH]; cbn [LATEXMK_VERSION_PATTERN].
  - intros _ [| c b] r Heq; simpl in Heq; [now subst r | discriminate].
  - destruct (versionAt (String c s)) eqn:Hat; [discriminate |].
    intros H [| c' b] r Heq; simpl in Heq; [now subst r |].
    injection Heq as -> Heq. now apply (IH H b r).
Qed.

(* ================================================================== *)
(** * The argument list of latexmk *)
(* ================================================================== *)

Section ConstructArgs.
Context `{P : Platform}.

Local Ltac split_conditions :=
  repeat match goal with
         | |- context [if ?c then _ else _] => destruct c
         end.

(** The argument list is made of three parts: the switches, the arguments of
    the engine, and the output directory with the source file. *)
Lemma constructArgs_parts (j : JobState) :
  constructArgs j = (leadingArgs j ++ engineArgs j ++ trailingArgs j)%list.
Proof.
  unfold constructArgs, leadingArgs, engineArgs, trailingArgs, push, whenever.
  destruct (getJobName j) as [name |];
    split_conditions; cbn [app]; reflexivity.
Qed.

Lemma leadingArgs_no_engine_flag (j : JobState) :
  forallb (fun a => negb (isEngineFlag a)) (leadingArgs j) = true.
Proof.
  unfold leadingArgs, whenever.
  destruct (getJobName j) as [name |];
    split_conditions; vm_compute; reflexivity.
Qed.

Lemma trailingArgs_no_engine_flag (j : JobState) :
  forallb (fun a => negb (isEngineFlag a)) (trailingArgs j) = true.
Proof.
  unfold trailingArgs, whenever.
  split_conditions; vm_compute; reflexivity.
Qed.

(** C2. With the engine pdflatex and the format pdf the argument list has no
    explicit engine flag, only [-pdf]; with xelatex and pdf it has the short
    flag [-xelatex]; with platex and dvi it has [-latex="platex"] followed
    by [-dvi]. *)
Theorem constructArgs_engine_branches (j : JobState) :
  (getEngine j = "pdflatex" -> getOutputFormat j = "pdf" ->
     constructArgs j = (leadingArgs j ++ ["-pdf"] ++ trailingArgs j)%list
     /\ forallb (fun a => negb (isEngineFlag a)) (constructArgs j) = true)
  /\ (getEngine j = "xelatex" -> getOutputFormat j = "pdf" ->
        constructArgs j
        = (leadingArgs j ++ ["-xelatex"] ++ trailingArgs j)%list)
  /\ (getEngine j = "platex" -> getOutputFormat j = "dvi" ->
        constructArgs j
        = (leadingArgs j ++ [("-latex=" ++ quoted "platex")%string; "-dvi"]
             ++ trailingArgs j)%list).
Proof.
  split; [| split]; intros He Hf; [split |..]; rewrite constructArgs_parts.
  - unfold engineArgs. rewrite He, Hf. reflexivity.
  - assert (Hengine : engineArgs j = ["-pdf"])
      by (unfold engineArgs; rewrite He, Hf; reflexivity).
    rewrite Hengine, !forallb_app.
    rewrite leadingArgs_no_engine_flag, trailingArgs_no_engine_flag.
    reflexivity.
  - unfold engineArgs. rewrite He, Hf. reflexivity.
  - unfold engineArgs. rewrite He, Hf. reflexivity.
Qed.

(** C3, as the code has it.  The list starts with the four fixed flags; then
    come [-g] exactly when a rebuild is asked for, the quoted job name
    exactly when the job name is neither null nor the empty string,
    [-shell-escape], [-synctex=1] and the [-r] flag of the bundled latexmkrc
    exactly when the matching switch is on; after the arguments of the
    engine comes the quoted output directory exactly when one is set; the
    quoted source file is the last element. *)
Theorem constructArgs_layout (j : JobState) :
  constructArgs j
  = (["-interaction=nonstopmode"; "-f"; "-cd"; "-file-line-error"]
     ++ whenever (getShouldRebuild j) "-g"
     ++ whenever (truthy (getJobName j))
          ("-jobname="
           ++ quoted match getJobName j with
                     | Some name => name
                     | None => EmptyString
                     end)%string
     ++ whenever (getEnableShellEscape j) "-shell-escape"
     ++ whenever (getEnableSynctex j) "-synctex=1"
     ++ whenever (getEnableExtendedBuildMode j)
          ("-r "
           ++ quoted
                (path_resolve
                   [module_dirname; ".."; ".."; "resources"; "latexmkrc"])
          )%string
     ++ engineArgs j
     ++ whenever (nonEmpty (getOutputDirectory j))
          ("-outdir=" ++ quoted (getOutputDirectory j))%string
     ++ [quoted (getTexFilePath j)])%list
  /\ firstn 4 (constructArgs j)
     = ["-interaction=nonstopmode"; "-f"; "-cd"; "-file-line-error"]
  /\ last (constructArgs j) EmptyString = quoted (getTexFilePath j).
Proof.
  split; [| split].
  - rewrite constructArgs_parts. unfold leadingArgs, trailingArgs, truthy.
    rewrite <- !app_assoc.
    destruct (getJobName j) as [name |]; reflexivity.
  - rewrite constructArgs_parts. reflexivity.
  - unfold constructArgs at 1. unfold push at 1. apply last_last.
Qed.

End ConstructArgs.

(** C2, on the document [/home/me/thesis/main.tex]. *)
Lemma constructArgs_engine_branches_witness :
  @constructArgs (echoPlatform false) (plainJob "pdflatex" "pdf")
  = ["-interaction=nonstopmode"; "-f"; "-cd"; "-file-line-error"; "-pdf";
     quoted "/home/me/thesis/main.tex"]
  /\ @constructArgs (echoPlatform false) (plainJob "xelatex" "pdf")
     = ["-interaction=nonstopmode"; "-f"; "-cd"; "-file-line-error";
        "-xelatex"; quoted "/home/me/thesis/main.tex"]
  /\ @constructArgs (echoPlatform false) (plainJob "platex" "dvi")
     = ["-interaction=nonstopmode"; "-f"; "-cd"; "-file-line-error";
        ("-latex=" ++ quoted "platex")%string; "-dvi";
        quoted "/home/me/thesis/main.tex"].
Proof.
  split; [| split].
  - exact (proj1
             (proj1 (@constructArgs_engine_branches (echoPlatform false)
                       (plainJob "pdflatex" "pdf"))
                eq_refl eq_refl)).
  - exact (proj1 (proj2 (@constructArgs_engine_branches (echoPlatform false)
                           (plainJob "xelatex" "pdf")))
             eq_refl eq_refl).
  - exact (proj2 (proj2 (@constructArgs_engine_branches (echoPlatform false)
                           (plainJob "platex" "dvi")))
             eq_refl eq_refl).
Defined.

(** C3, as stated, fails on a job whose name is the empty string: the name
    is not null, and no argument sets a job name. *)
Lemma constructArgs_empty_job_name :
  getJobName emptyNameJob <> None
  /\ existsb isJobNameFlag (@constructArgs (echoPlatform false) emptyNameJob)
     = false.
Proof. split; [discriminate | reflexivity]. Qed.

(** C9. The producer [ps2pdf] gives [-pdfps]; [dvipdf] gives [-pdfdvi] with
    the fixed converter command; any other producer gives [-pdfdvi] with the
    converter command built from its name. *)
Theorem constructPdfProducerArgs_cases (j : JobState) :
  (getProducer j = "ps2pdf" -> constructPdfProducerArgs j = "-pdfps")
  /\ (getProducer j = "dvipdf" ->
        constructPdfProducerArgs j
        = ("-pdfdvi -e " ++ dq ++ "$dvipdf = 'dvipdf %O %S %D';" ++ dq)%string)
  /\ (getProducer j <> "ps2pdf" -> getProducer j <> "dvipdf" ->
        constructPdfProducerArgs j
        = ("-pdfdvi -e " ++ dq ++ "$dvipdf = '" ++ getProducer j
             ++ " %O -o %D %S';" ++ dq)%string).
Proof.
  unfold constructPdfProducerArgs. split; [| split].
  - intros ->. reflexivity.
  - intros ->. reflexivity.
  - intros Hps Hdvi.
    apply String.eqb_neq in Hps. apply String.eqb_neq in Hdvi.
    now rewrite Hps, Hdvi.
Qed.

(** C9, on the producers [ps2pdf], [dvipdf] and [dvipdfmx]. *)
Lemma constructPdfProducerArgs_cases_witness :
  constructPdfProducerArgs
    (mkJobState false None false false false "latex" "pdf" "ps2pdf"
       EmptyString false "a.tex" "." None)
  = "-pdfps"
  /\ constructPdfProducerArgs
       (mkJobState false None false false false "latex" "pdf" "dvipdf"
          EmptyString false "a.tex" "." None)
     = ("-pdfdvi -e " ++ dq ++ "$dvipdf = 'dvipdf %O %S %D';" ++ dq)%string
  /\ constructPdfProducerArgs (plainJob "latex" "pdf")
     = ("-pdfdvi -e " ++ dq ++ "$dvipdf = 'dvipdfmx %O -o %D %S';" ++ dq
       )%string.
Proof.
  split; [| split].
  - apply (proj1 (constructPdfProducerArgs_cases _)). reflexivity.
  - apply (proj1 (proj2 (constructPdfProducerArgs_cases _))). reflexivity.
  - apply (proj2 (proj2 (constructPdfProducerArgs_cases
                           (plainJob "latex" "pdf")))); discriminate.
Defined.

(* ================================================================== *)
(** * Running latexmk *)
(* ================================================================== *)

Section Execution.
Context `{P : Platform}.

Lemma execLatexmk_unchanged (directoryPath : string) (args : list string) :
  config_useRelativePaths && truthy (cwd (latexmkOptions directoryPath))
  = false ->
  execLatexmk directoryPath args = execute directoryPath args.
Proof.
  intros Hoff. unfold execLatexmk, execute, latexmkOptions in *.
  rewrite Hoff. reflexivity.
Qed.

(** C7. With the preference for relative paths on and a working directory
    set, the last argument, a quoted absolute path, is replaced by the
    quoted path relative to the working directory, and the command line is
    built from the rewritten list; with the preference off, the list is
    used as it is. *)
Theorem execLatexmk_relative_paths (directoryPath : string) :
  (config_useRelativePaths = true ->
   forall (dir : string) (init : list string) (absPath : string),
     cwd (latexmkOptions directoryPath) = Some dir ->
     nonEmpty dir = true ->
     execLatexmk directoryPath (init ++ [quoted absPath])
     = execute directoryPath
         (init ++ [quoted (path_relative dir absPath)]))
  /\ (config_useRelativePaths = false ->
      forall args : list string,
        execLatexmk directoryPath args = execute directoryPath args).
Proof.
  split.
  - intros Hon dir init absPath Hcwd Hdir.
    unfold execLatexmk, execute.
    fold (latexmkOptions directoryPath).
    rewrite Hon, Hcwd. cbn [truthy andb]. rewrite Hdir.
    assert (Hargs : exists a rest, (init ++ [quoted absPath])%list = a :: rest)
      by (destruct init; simpl; eauto).
    destruct Hargs as (a & rest & Hargs).
    rewrite Hargs at 1. rewrite last_last, slice_quoted, setLast_snoc.
    reflexivity.
  - intros Hoff args. apply execLatexmk_unchanged. now rewrite Hoff.
Qed.

(** The argument list of a job is never empty, so [execLatexmk] fails on it
    only when the process does. *)
Lemma execLatexmk_constructArgs (j : JobState) :
  exists args : list string,
    execLatexmk (getProjectPath j) (constructArgs j)
    = execute (getProjectPath j) args.
Proof.
  unfold execLatexmk, execute.
  fold (latexmkOptions (getProjectPath j)).
  destruct (config_useRelativePaths
            && truthy (cwd (latexmkOptions (getProjectPath j)))) eqn:Hrel.
  - apply andb_prop in Hrel as [_ Hcwd].
    destruct (cwd (latexmkOptions (getProjectPath j))) as [dir |];
      [| discriminate].
    rewrite constructArgs_parts. unfold leadingArgs. cbn [app].
    eexists. reflexivity.
  - eexists. reflexivity.
Qed.

(** C5. The codes 10, 11, 12, 13 and 20 each log their own error; every
    other code is left to the handler of the base class. *)
Theorem logStatusCode_taxonomy (err : string) (l : Log) :
  logStatusCode 10 err l
  = (l ++ [mkEntry LError "latexmk: Bad command line arguments."])%list
  /\ logStatusCode 11 err l
     = (l ++ [mkEntry LError
                "latexmk: File specified on command line not found or other file not found."]
       )%list
  /\ logStatusCode 12 err l
     = (l ++ [mkEntry LError "latexmk: Failure in some part of making files."]
       )%list
  /\ logStatusCode 13 err l
     = (l ++ [mkEntry LError "latexmk: error in initialization file."])%list
  /\ logStatusCode 20 err l
     = (l ++ [mkEntry LError
                "latexmk: probable bug or retcode from called program."]
       )%list
  /\ (forall code : Z,
        code <> 10%Z -> code <> 11%Z -> code <> 12%Z -> code <> 13%Z ->
        code <> 20%Z ->
        logStatusCode code err l = super_logStatusCode code err l).
Proof.
  repeat (split; [reflexivity |]).
  intros code H10 H11 H12 H13 H20. unfold logStatusCode.
  apply Z.eqb_neq in H10, H11, H12, H13, H20.
  now rewrite H10, H11, H12, H13, H20.
Qed.

(** C4. When the process settles with a result, [run] resolves with the
    status code of that result, whatever it is; the log is then what
    [logStatusCode] makes of it when the code is not 0, and is untouched
    when the code is 0. *)
Theorem run_returns_status_code (j : JobState) (l : Log)
    (args : list string) (result : ProcessResult) :
  execLatexmk (getProjectPath j) (constructArgs j) = Resolved (args, result) ->
  fst (run j l) = Resolved (statusCode result)
  /\ (statusCode result <> 0%Z ->
      snd (run j l) = logStatusCode (statusCode result) (stderr result) l)
  /\ (statusCode result = 0%Z -> snd (run j l) = l).
Proof.
  intros Hexec. unfold run. rewrite Hexec. cbn [fst snd].
  split; [reflexivity |]. split; intros Hcode.
  - apply Z.eqb_neq in Hcode. now rewrite Hcode.
  - now rewrite Hcode.
Qed.

(** X9. [run] is rejected only when the process is, and then logs
    nothing. *)
Lemma run_rejected (j : JobState) (l : Log) (e : string) :
  fst (run j l) = Rejected e ->
  (exists command options, executeChildProcess command options = Rejected e)
  /\ snd (run j l) = l.
Proof.
  unfold run. destruct (execLatexmk_constructArgs j) as [args Hexec].
  rewrite Hexec. unfold execute.
  destruct (executeChildProcess (commandLine args)
              (latexmkOptions (getProjectPath j))) as [result | e'] eqn:Hproc;
    cbn [andThen fst snd].
  - discriminate.
  - intros [= <-]. split; [eauto | reflexivity].
Qed.

(** C6. Once the probe has settled, exactly one entry is logged, and its
    level follows the class of the result: an error for a status code other
    than 0; a warning when the output has no version; a warning when the
    version comes before 4.37 in the order of strings; an information
    otherwise.  The order is that of the code units, not that of the
    numbers: 10.0 counts as too old and 4.9 as recent enough. *)
Theorem checkRuntimeDependencies_classes (l : Log) (args : list string)
    (result : ProcessResult) :
  execLatexmk "." ["-v"] = Resolved (args, result) ->
  (exists msg : string,
     checkRuntimeDependencies l
     = (Resolved tt,
        (l ++ [mkEntry (probeLevel (classifyProbe result)) msg])%list))
  /\ (classifyProbe result = ProbeFailed <-> statusCode result <> 0%Z)
  /\ (classifyProbe result = ProbeUnknownVersion <->
      statusCode result = 0%Z
      /\ LATEXMK_VERSION_PATTERN (stdout result) = None)
  /\ (forall version : string,
        classifyProbe result = ProbeOutdated version <->
        statusCode result = 0%Z
        /\ LATEXMK_VERSION_PATTERN (stdout result) = Some version
        /\ String.ltb version "4.37" = true)
  /\ (forall version : string,
        classifyProbe result = ProbeAdequate version <->
        statusCode result = 0%Z
        /\ LATEXMK_VERSION_PATTERN (stdout result) = Some version
        /\ String.ltb version "4.37" = false)
  /\ (String.ltb "10.0" LATEXMK_MINIMUM_VERSION = true
      /\ numericallyBelow "10.0" LATEXMK_MINIMUM_VERSION = Some false)
  /\ (String.ltb "4.9" LATEXMK_MINIMUM_VERSION = false
      /\ numericallyBelow "4.9" LATEXMK_MINIMUM_VERSION = Some true).
Proof.
  intros Hexec.
  split.
  { unfold checkRuntimeDependencies, classifyProbe. rewrite Hexec.
    destruct (negb (statusCode result =? 0)%Z); [eexists; reflexivity |].
    destruct (LATEXMK_VERSION_PATTERN (stdout result)) as [version |];
      [| eexists; reflexivity].
    destruct (String.ltb version LATEXMK_MINIMUM_VERSION);
      eexists; reflexivity. }
  unfold classifyProbe. change LATEXMK_MINIMUM_VERSION with "4.37".
  destruct (Z.eqb_spec (statusCode result) 0) as [Hzero | Hnonzero];
    cbn [negb];
    [ destruct (LATEXMK_VERSION_PATTERN (stdout result)) as [v |];
      [ destruct (String.ltb v "4.37") eqn:Hlt |] |];
    repeat split; intros; try reflexivity; intuition congruence.
Qed.

End Execution.

(** C7, on the arguments of a full job, executed from the directory of the
    document. *)
Lemma execLatexmk_relative_paths_witness :
  @execLatexmk (echoPlatform true) "/home/me/thesis"
    (["-cd"; "-pdf"] ++ [quoted "/home/me/thesis/main.tex"])
  = @execute (echoPlatform true) "/home/me/thesis"
      (["-cd"; "-pdf"] ++ [quoted "main.tex"])
  /\ @execLatexmk (echoPlatform false) "/home/me/thesis"
       ["-cd"; "-pdf"; quoted "/home/me/thesis/main.tex"]
     = @execute (echoPlatform false) "/home/me/thesis"
         ["-cd"; "-pdf"; quoted "/home/me/thesis/main.tex"].
Proof.
  split.
  - exact (proj1 (@execLatexmk_relative_paths (echoPlatform true)
                    "/home/me/thesis")
             eq_refl "/home/me/thesis" ["-cd"; "-pdf"]
             "/home/me/thesis/main.tex" eq_refl eq_refl).
  - exact (proj2 (@execLatexmk_relative_paths (echoPlatform false)
                    "/home/me/thesis")
             eq_refl ["-cd"; "-pdf"; quoted "/home/me/thesis/main.tex"]).
Defined.

(** C5, on the status code 3. *)
Lemma logStatusCode_taxonomy_witness :
  @logStatusCode (fixedPlatform false (Rejected "unused")) 3 "boom" []
  = [mkEntry LError "latexmk: failed with status code 3"].
Proof.
  pose proof (@logStatusCode_taxonomy (fixedPlatform false (Rejected "unused"))
                "boom" []) as H.
  destruct H as (_ & _ & _ & _ & _ & Hother).
  rewrite (Hother 3%Z) by discriminate. reflexivity.
Defined.

(** C4, on a run that ends with the status code 12 and on one that ends
    with 0. *)
Lemma run_returns_status_code_witness :
  @run (fixedPlatform false (Resolved (mkProcessResult 12 "out" "err")))
    (plainJob "pdflatex" "pdf") []
  = (Resolved 12%Z,
     [mkEntry LError "latexmk: Failure in some part of making files."])
  /\ @run (fixedPlatform false (Resolved (mkProcessResult 0 "out" "err")))
       (plainJob "pdflatex" "pdf") []
     = (Resolved 0%Z, []).
Proof.
  split.
  - pose proof (@run_returns_status_code
                  (fixedPlatform false
                     (Resolved (mkProcessResult 12 "out" "err")))
                  (plainJob "pdflatex" "pdf") [] _ _ eq_refl)
      as (Hcode & Hlog & _).
    apply injective_projections; cbn [fst snd].
    + exact Hcode.
    + rewrite Hlog by discriminate. reflexivity.
  - pose proof (@run_returns_status_code
                  (fixedPlatform false
                     (Resolved (mkProcessResult 0 "out" "err")))
                  (plainJob "pdflatex" "pdf") [] _ _ eq_refl)
      as (Hcode & _ & Hlog).
    apply injective_projections; cbn [fst snd].
    + exact Hcode.
    + apply Hlog. reflexivity.
Defined.

(** C6, on a probe that finds the version 4.35. *)
Lemma checkRuntimeDependencies_classes_witness :
  exists msg : string,
    @checkRuntimeDependencies
      (fixedPlatform false
         (Resolved
            (mkProcessResult 0
               "Latexmk, John Collins, 17 Jan. 2018. Version 4.35"
               EmptyString)))
      []
    = (Resolved tt, [mkEntry LWarning msg]).
Proof.
  exact (proj1
           (@checkRuntimeDependencies_classes
              (fixedPlatform false
                 (Resolved
                    (mkProcessResult 0
                       "Latexmk, John Collins, 17 Jan. 2018. Version 4.35"
                       EmptyString)))
              [] _ _ eq_refl)).
Defined.

(** The four classes, each on a probe of its own. *)
Example checkRuntimeDependencies_runs :
  snd (@checkRuntimeDependencies
         (fixedPlatform false
            (Resolved (mkProcessResult 2 EmptyString "not found"))) [])
  = [mkEntry LError
       ("latexmk check failed with code 2 and response of "
        ++ quoted "not found" ++ ".")%string]
  /\ snd (@checkRuntimeDependencies
            (fixedPlatform false
               (Resolved (mkProcessResult 0 "Latexmk 4.55" EmptyString))) [])
     = [mkEntry LWarning
          ("latexmk check succeeded but with an unknown version response of "
           ++ quoted "Latexmk 4.55" ++ ".")%string]
  /\ snd (@checkRuntimeDependencies
            (fixedPlatform false
               (Resolved (mkProcessResult 0 "Version 10.0" EmptyString))) [])
     = [mkEntry LWarning
          ("latexmk check succeeded but with a version of 10.0" ++ dq
           ++ ". Minimum version required is 4.37.")%string]
  /\ snd (@checkRuntimeDependencies
            (fixedPlatform false
               (Resolved (mkProcessResult 0 "version   4.9 " EmptyString))) [])
     = [mkEntry LInfo "latexmk check succeeded. Found version 4.9."].
Proof. repeat split. Qed.

(** X7. With relative paths on and a working directory set, the probe itself
    is rewritten: its only argument [-v] is taken for a quoted path, loses its
    two characters, and the command line names the path of the empty string
    relative to the working directory. *)
Lemma probe_with_relative_paths `{P : Platform} (dir : string) :
  config_useRelativePaths = true ->
  cwd (latexmkOptions ".") = Some dir ->
  nonEmpty dir = true ->
  execLatexmk "." ["-v"]
  = execute "." [quoted (path_relative dir EmptyString)].
Proof.
  intros Hon Hcwd Hdir. unfold execLatexmk, execute.
  fold (latexmkOptions "."). rewrite Hon, Hcwd. cbn [truthy andb].
  rewrite Hdir. reflexivity.
Qed.

(* ================================================================== *)
(** * The settings file: precedence of the aliases *)
(* ================================================================== *)

(** A setter that leaves a field alone leaves it alone under
    [applyOption] too. *)
Lemma applyOption_preserves {A B : Type} (get : BuildState.t -> B)
    (set : A -> BuildState.t -> BuildState.t) (v : option A)
    (s : BuildState.t) :
  (forall a s', get (set a s') = get s') ->
  get (applyOption v set s) = get s.
Proof. intros Hset. destruct v; simpl; [apply Hset | reflexivity]. Qed.

Lemma applyOption_sets {A B : Type} (get : BuildState.t -> B)
    (set : A -> BuildState.t -> BuildState.t) (into : A -> B)
    (v : option A) (s : BuildState.t) :
  (forall a s', get (set a s') = into a) ->
  get (applyOption v set s)
  = match v with Some a => into a | None => get s end.
Proof. intros Hset. destruct v; simpl; [apply Hset | reflexivity]. Qed.

Local Ltac through_the_layers get :=
  unfold initializeBuildStateFromProperties; cbv zeta;
  rewrite ?(applyOption_preserves get) by (intros; reflexivity);
  erewrite (applyOption_sets get) by (intros; cbn; reflexivity);
  rewrite ?(applyOption_preserves get) by (intros; reflexivity);
  reflexivity.

(** The engine after the settings file: the first non-empty alias of the
    chain [customEngine], [engine], [program], or the engine as it was. *)
Lemma engine_resolution (state : BuildState.t) (p : Properties.t) :
  BuildState.engine (initializeBuildStateFromProperties state p)
  = match
      firstOf [ nonEmptyString (Properties.customEngine p);
                nonEmptyString (Properties.engine p);
                nonEmptyString (Properties.program p) ]
    with
    | Some v => v
    | None => BuildState.engine state
    end.
Proof. through_the_layers BuildState.engine. Qed.

Lemma jobNames_resolution (state : BuildState.t) (p : Properties.t) :
  BuildState.jobNames (initializeBuildStateFromProperties state p)
  = match
      firstOf [ nonEmptyArray (Properties.jobNames p);
                nonEmptyArray (Properties.jobnames p);
                option_map (fun name => [name])
                  (nonEmptyString (Properties.jobname p)) ]
    with
    | Some names => map Some names
    | None => BuildState.jobNames state
    end.
Proof. through_the_layers BuildState.jobNames. Qed.

Lemma outputFormat_resolution (state : BuildState.t) (p : Properties.t) :
  BuildState.outputFormat (initializeBuildStateFromProperties state p)
  = match
      firstOf [ nonEmptyString (Properties.outputFormat p);
                nonEmptyString (Properties.format p) ]
    with
    | Some v => v
    | None => BuildState.outputFormat state
    end.
Proof. through_the_layers BuildState.outputFormat. Qed.

Lemma outputDirectory_resolution (state : BuildState.t) (p : Properties.t) :
  BuildState.outputDirectory (initializeBuildStateFromProperties state p)
  = match
      firstOf [ nonEmptyString (Properties.outputDirectory p);
                nonEmptyString (Properties.output_directory p) ]
    with
    | Some v => v
    | None => BuildState.outputDirectory state
    end.
Proof. through_the_layers BuildState.outputDirectory. Qed.

Lemma nonEmptyString_present (v : string) :
  v <> EmptyString -> nonEmptyString (Some v) = Some v.
Proof. destruct v; [congruence | reflexivity]. Qed.

Lemma nonEmptyArray_present (names : list string) :
  names <> [] -> nonEmptyArray (Some names) = Some names.
Proof. destruct names; [congruence | reflexivity]. Qed.

(** C1. Each option goes to the first non-empty alias of its chain,
    whatever the later aliases hold: [customEngine], then [engine], then
    [program] for the engine; [jobNames], then [jobnames], then [jobname]
    for the job names; [outputFormat], then [format] for the format;
    [outputDirectory], then [output_directory] for the output directory. *)
Theorem alias_precedence (state : BuildState.t) (p : Properties.t) :
  let state' := initializeBuildStateFromProperties state p in
  ((forall v : string,
      Properties.customEngine p = Some v -> v <> EmptyString ->
      BuildState.engine state' = v)
   /\ (forall v : string,
         nonEmptyString (Properties.customEngine p) = None ->
         Properties.engine p = Some v -> v <> EmptyString ->
         BuildState.engine state' = v)
   /\ (forall v : string,
         nonEmptyString (Properties.customEngine p) = None ->
         nonEmptyString (Properties.engine p) = None ->
         Properties.program p = Some v -> v <> EmptyString ->
         BuildState.engine state' = v))
  /\ ((forall names : list string,
         Properties.jobNames p = Some names -> names <> [] ->
         BuildState.jobNames state' = map Some names)
      /\ (forall names : list string,
            nonEmptyArray (Properties.jobNames p) = None ->
            Properties.jobnames p = Some names -> names <> [] ->
            BuildState.jobNames state' = map Some names)
      /\ (forall name : string,
            nonEmptyArray (Properties.jobNames p) = None ->
            nonEmptyArray (Properties.jobnames p) = None ->
            Properties.jobname p = Some name -> name <> EmptyString ->
            BuildState.jobNames state' = [Some name]))
  /\ ((forall v : string,
         Properties.outputFormat p = Some v -> v <> EmptyString ->
         BuildState.outputFormat state' = v)
      /\ (forall v : string,
            nonEmptyString (Properties.outputFormat p) = None ->
            Properties.format p = Some v -> v <> EmptyString ->
            BuildState.outputFormat state' = v))
  /\ ((forall v : string,
         Properties.outputDirectory p = Some v -> v <> EmptyString ->
         BuildState.outputDirectory state' = v)
      /\ (forall v : string,
            nonEmptyString (Properties.outputDirectory p) = None ->
            Properties.output_directory p = Some v -> v <> EmptyString ->
            BuildState.outputDirectory state' = v)).
Proof.
  cbv zeta. repeat apply conj; intros;
    rewrite ?engine_resolution, ?jobNames_resolution,
      ?outputFormat_resolution, ?outputDirectory_resolution;
    cbn [firstOf];
    repeat match goal with
           | H : _ = Some _ |- _ => rewrite H; clear H
           | H : _ = None |- _ => rewrite H; clear H
           end;
    rewrite ?nonEmptyString_present, ?nonEmptyArray_present by assumption;
    reflexivity.
Qed.

(** C1, on the bags of the three tests: every alias present; the second and
    third levels only; the third level only. *)
Lemma alias_precedence_witness :
  (BuildState.engine
     (initializeBuildStateFromProperties gronkState firstLevelProperties)
   = "primary"
   /\ BuildState.jobNames
        (initializeBuildStateFromProperties gronkState firstLevelProperties)
      = [Some "primary"]
   /\ BuildState.outputFormat
        (initializeBuildStateFromProperties gronkState firstLevelProperties)
      = "primary"
   /\ BuildState.outputDirectory
        (initializeBuildStateFromProperties gronkState firstLevelProperties)
      = "primary")
  /\ (BuildState.engine
        (initializeBuildStateFromProperties gronkState secondLevelProperties)
      = "primary"
      /\ BuildState.jobNames
           (initializeBuildStateFromProperties gronkState
              secondLevelProperties)
         = [Some "primary"]
      /\ BuildState.outputFormat
           (initializeBuildStateFromProperties gronkState
              secondLevelProperties)
         = "primary"
      /\ BuildState.outputDirectory
           (initializeBuildStateFromProperties gronkState
              secondLevelProperties)
         = "primary")
  /\ (BuildState.engine
        (initializeBuildStateFromProperties gronkState thirdLevelProperties)
      = "primary"
      /\ BuildState.jobNames
           (initializeBuildStateFromProperties gronkState
              thirdLevelProperties)
         = [Some "primary"]).
Proof.
  pose proof (alias_precedence gronkState firstLevelProperties)
    as ((E1 & _ & _) & (J1 & _ & _) & (F1 & _) & (D1 & _)).
  pose proof (alias_precedence gronkState secondLevelProperties)
    as ((_ & E2 & _) & (_ & J2 & _) & (_ & F2) & (_ & D2)).
  pose proof (alias_precedence gronkState thirdLevelProperties)
    as ((_ & _ & E3) & (_ & _ & J3) & _ & _).
  cbv zeta in *.
  repeat apply conj.
  - apply E1; [reflexivity | discriminate].
  - apply (J1 ["primary"]); [reflexivity | discriminate].
  - apply F1; [reflexivity | discriminate].
  - apply D1; [reflexivity | discriminate].
  - apply E2; [reflexivity | reflexivity | discriminate].
  - apply (J2 ["primary"]); [reflexivity | reflexivity | discriminate].
  - apply F2; [reflexivity | reflexivity | discriminate].
  - apply D2; [reflexivity | reflexivity | discriminate].
  - apply E3; [reflexivity | reflexivity | reflexivity | discriminate].
  - apply J3; [reflexivity | reflexivity | reflexivity | discriminate].
Defined.

(** The expectations of the three tests of
    [describe('initializeBuildStateFromProperties')]. *)
Example first_level_overrides_second_level :
  let state :=
    initializeBuildStateFromProperties gronkState firstLevelProperties in
  BuildState.cleanPatterns state = ["primary"]
  /\ BuildState.enableExtendedBuildMode state = true
  /\ BuildState.enableShellEscape state = true
  /\ BuildState.enableSynctex state = true
  /\ BuildState.jobNames state = [Some "primary"]
  /\ BuildState.engine state = "primary"
  /\ BuildState.moveResultToSourceDirectory state = true
  /\ BuildState.outputFormat state = "primary"
  /\ BuildState.outputDirectory state = "primary"
  /\ BuildState.producer state = "primary".
Proof. repeat split. Qed.

Example second_level_overrides_third_level :
  let state :=
    initializeBuildStateFromProperties gronkState secondLevelProperties in
  BuildState.jobNames state = [Some "primary"]
  /\ BuildState.engine state = "primary"
  /\ BuildState.outputFormat state = "primary"
  /\ BuildState.outputDirectory state = "primary".
Proof. repeat split. Qed.

Example third_level_is_set :
  let state :=
    initializeBuildStateFromProperties gronkState thirdLevelProperties in
  BuildState.jobNames state = [Some "primary"]
  /\ BuildState.engine state = "primary".
Proof. repeat split. Qed.

(* ================================================================== *)
(** * Resolving the output file *)
(* ================================================================== *)

Section Composer.
Context `{N : PathModule}.

(** C8. A path that is already set is returned as it is and the parser is
    not called.  Otherwise the parser is called, once; when it leaves no
    path the result is null; when it leaves one and the result is to be
    moved (the move option is on and an output directory is in use), the
    result is the base name of that path joined to the source directory;
    when it is not to be moved, the result is the path of the parser. *)
Theorem resolveOutputFilePath_contract (builder : Builder) (j : JobState) :
  (forall p : string,
     getOutputFilePath j = Some p ->
     resolveOutputFilePath builder j = (Some p, j, []))
  /\ (getOutputFilePath j = None ->
      snd (resolveOutputFilePath builder j) = [ParseLogAndFdbFiles]
      /\ snd (fst (resolveOutputFilePath builder j))
         = parseLogAndFdbFiles builder j
      /\ (getOutputFilePath (parseLogAndFdbFiles builder j) = None ->
          fst (fst (resolveOutputFilePath builder j)) = None)
      /\ (forall p : string,
            getOutputFilePath (parseLogAndFdbFiles builder j) = Some p ->
            getMoveResultToSourceDirectory (parseLogAndFdbFiles builder j)
            = true ->
            getOutputDirectory (parseLogAndFdbFiles builder j)
            <> EmptyString ->
            fst (fst (resolveOutputFilePath builder j))
            = Some (path_join
                      (getProjectPath (parseLogAndFdbFiles builder j))
                      (path_basename p)))
      /\ (forall p : string,
            getOutputFilePath (parseLogAndFdbFiles builder j) = Some p ->
            shouldMoveResult (parseLogAndFdbFiles builder j) = false ->
            fst (fst (resolveOutputFilePath builder j)) = Some p)).
Proof.
  unfold resolveOutputFilePath. split.
  - intros p Hset. now rewrite Hset.
  - intros Hunset. rewrite Hunset.
    destruct (getOutputFilePath (parseLogAndFdbFiles builder j))
      as [parsed |] eqn:Hparsed; cbn [fst snd].
    + repeat apply conj; try reflexivity; try discriminate.
      * intros p [= <-] Hmove Hdir. unfold shouldMoveResult.
        rewrite Hmove.
        destruct (getOutputDirectory (parseLogAndFdbFiles builder j));
          [congruence | reflexivity].
      * intros p [= <-] Hstay. now rewrite Hstay.
    + repeat apply conj; try reflexivity; discriminate.
Qed.






End Composer.

(** C8, on the four tests of [describe('resolveOutputFilePath')]. *)
Lemma resolveOutputFilePath_contract_witness :
  @resolveOutputFilePath posixPaths (mockBuilder 0 None)
    (fooJob EmptyString false (Some "foo.pdf"))
  = (Some "foo.pdf", fooJob EmptyString false (Some "foo.pdf"), [])
  /\ fst (fst (@resolveOutputFilePath posixPaths
                 (mockBuilder 0 (Some "foo.pdf"))
                 (fooJob EmptyString false None)))
     = Some "foo.pdf"
  /\ fst (fst (@resolveOutputFilePath posixPaths (mockBuilder 0 None)
                 (fooJob EmptyString false None)))
     = None
  /\ fst (fst (@resolveOutputFilePath posixPaths
                 (mockBuilder 0 (Some "bar/foo.pdf"))
                 (fooJob "bar" true None)))
     = Some "foo.pdf".
Proof.
  split; [| split; [| split]].
  - exact (proj1 (@resolveOutputFilePath_contract posixPaths
                    (mockBuilder 0 None)
                    (fooJob EmptyString false (Some "foo.pdf")))
             "foo.pdf" eq_refl).
  - pose proof (proj2 (@resolveOutputFilePath_contract posixPaths
                         (mockBuilder 0 (Some "foo.pdf"))
                         (fooJob EmptyString false None)) eq_refl)
      as (_ & _ & _ & _ & Hstay).
    exact (Hstay "foo.pdf" eq_refl eq_refl).
  - pose proof (proj2 (@resolveOutputFilePath_contract posixPaths
                         (mockBuilder 0 None)
                         (fooJob EmptyString false None)) eq_refl)
      as (_ & _ & Hnull & _).
    exact (Hnull eq_refl).
  - pose proof (proj2 (@resolveOutputFilePath_contract posixPaths
                         (mockBuilder 0 (Some "bar/foo.pdf"))
                         (fooJob "bar" true None)) eq_refl)
      as (_ & _ & _ & Hmove & _).
    assert (Hdir : "bar" <> EmptyString) by discriminate.
    exact (Hmove "bar/foo.pdf" eq_refl eq_refl Hdir).
Defined.


(** The same build, asked for by the command and by the save hook. *)
Example build_command_opens :
  @build posixPaths fileTexHost false None []
  = (Resolved true,
     [BuilderRun; ParseLogAndFdbFiles; OpenerOpen "file.pdf" "file.tex" 1],
     []).
Proof. reflexivity. Qed.

Example build_on_save_is_quiet :
  @build posixPaths fileTexHost false (Some false) []
  = (Resolved true, [BuilderRun; ParseLogAndFdbFiles], []).
Proof. reflexivity. Qed.

(** The three tests of [describe('runDiCy')]: the PDF is opened and the
    SyncTeX file is not; nothing is opened after a failure; nothing is
    opened when opening is not asked for. *)
Example runDiCy_tests :
  snd (runDiCy (fileTexDiCyHost true) ["build"] false None)
  = [OpenerOpen "file.pdf" "file.tex" 1]
  /\ snd (runDiCy (fileTexDiCyHost false) ["build"] false None) = []
  /\ snd (runDiCy (fileTexDiCyHost true) ["build"] false (Some false)) = [].
Proof. repeat split. Qed.

(** The build with DiCy, asked for by the command and by the save hook. *)
Example build_with_DiCy :
  @build posixPaths (fileTexDiCyHost true) false None []
  = (Resolved true, [OpenerOpen "file.pdf" "file.tex" 1], [])
  /\ @build posixPaths (fileTexDiCyHost true) false (Some false) []
     = (Resolved true, [], []).
Proof. split; reflexivity. Qed.

(** The options of the engine, as the tests of [describe('getDiCy')] expect
    them. *)
Example initializeDiCy_options :
  initializeDiCy fileTexHost "file.tex" false false
  = ("file.tex", mkDiCyOptions "info" None None, false)
  /\ initializeDiCy fileTexHost "file.tex" false true
     = ("file.tex", mkDiCyOptions "info" (Some false) None, false)
  /\ initializeDiCy fileTexHost "file.tex" true false
     = ("file.tex", mkDiCyOptions "info" None (Some false), true).
Proof. repeat split. Qed.

(** A save in an editor that is not the active one, or with building on
    save off, asks for nothing. *)
Example save_elsewhere_is_ignored :
  onDidSave (mkWorkspace (Some 4) true) 3 = []
  /\ onDidSave (mkWorkspace None true) 3 = []
  /\ onDidSave (mkWorkspace (Some 3) false) 3 = [].
Proof. repeat split. Qed.

(* ================================================================== *)
(** * More about the argument list and its execution *)
(* ================================================================== *)

Section MoreAboutLatexmk.
Context `{P : Platform}.

Local Ltac by_cases :=
  repeat match goal with
         | |- context [if ?c then _ else _] => destruct c
         end.

(** X1. A job is never started with fewer than six arguments or with more
    than thirteen. *)
Theorem constructArgs_length (j : JobState) :
  6 <= List.length (constructArgs j) <= 13.
Proof.
  rewrite constructArgs_parts.
  unfold leadingArgs, engineArgs, trailingArgs, whenever.
  destruct (getJobName j) as [name |]; by_cases; cbn [app List.length]; lia.
Qed.

(** X2. Every engine but pdflatex is named by an argument of its own, and
    the argument carries the engine of the job: [-latex="<engine>"] for an
    engine of the LaTeX family, the short flag [-<engine>] for xelatex and
    lualatex with the format pdf, and [-pdflatex="<engine>"] otherwise. *)
Theorem constructArgs_names_engine (j : JobState) :
  getEngine j <> "pdflatex" ->
  (LATEX_PATTERN (getEngine j) = true /\
   In ("-latex=" ++ quoted (getEngine j))%string (constructArgs j))
  \/ (LATEX_PATTERN (getEngine j) = false /\
      getOutputFormat j = "pdf" /\
      (getEngine j = "xelatex" \/ getEngine j = "lualatex") /\
      In ("-" ++ getEngine j)%string (constructArgs j))
  \/ (LATEX_PATTERN (getEngine j) = false /\
      (getOutputFormat j =? "pdf")%string
      && PDF_ENGINE_PATTERN (getEngine j) = false /\
      In ("-pdflatex=" ++ quoted (getEngine j))%string (constructArgs j)).
Proof.
  intros Hengine.
  assert (Hpart : forall a : string,
             In a (engineArgs j) -> In a (constructArgs j)).
  { intros a Ha. rewrite constructArgs_parts.
    apply in_or_app. right. apply in_or_app. now left. }
  unfold engineArgs in Hpart.
  destruct (LATEX_PATTERN (getEngine j)) eqn:Hfamily.
  - left. split; [reflexivity |]. apply Hpart. now left.
  - right.
    destruct ((getOutputFormat j =? "pdf")%string
              && PDF_ENGINE_PATTERN (getEngine j)) eqn:Hshort.
    + left. apply andb_prop in Hshort as [Hformat Hshort].
      apply String.eqb_eq in Hformat. unfold PDF_ENGINE_PATTERN in Hshort.
      repeat split; auto.
      * apply orb_prop in Hshort as [Hx | Hl];
          [left | right]; now apply String.eqb_eq.
      * apply Hpart. now left.
    + right. repeat split; auto.
      apply Hpart. apply String.eqb_neq in Hengine. rewrite Hengine.
      now left.
Qed.

Lemma join_snoc (sep : string) (args : list string) (a : string) :
  args <> [] ->
  join sep (args ++ [a]) = (join sep args ++ sep ++ a)%string.
Proof.
  unfold join. induction args as [| x rest IH]; [congruence |].
  intros _. destruct rest as [| y rest].
  - reflexivity.
  - change (String.concat sep ((x :: y :: rest) ++ [a]))
      with (x ++ sep ++ String.concat sep ((y :: rest) ++ [a]))%string.
    rewrite IH by discriminate.
    change (String.concat sep (x :: y :: rest))
      with (x ++ sep ++ String.concat sep (y :: rest))%string.
    now rewrite !append_assoc.
Qed.

(** X3. The command line of a job starts with the executable and the four
    fixed flags and ends with a space and the quoted source file. *)
Theorem commandLine_of_job (j : JobState) :
  exists middle : string,
    commandLine (constructArgs j)
    = ("latexmk -interaction=nonstopmode -f -cd -file-line-error" ++ middle
       ++ " " ++ quoted (getTexFilePath j))%string.
Proof.
  rewrite constructArgs_parts. unfold leadingArgs, trailingArgs.
  set (fixed := ["-interaction=nonstopmode"; "-f"; "-cd"; "-file-line-error"]).
  match goal with
  | |- context [((fixed ++ ?x) ++ engineArgs j ++ ?y ++ [?z])%list] =>
      replace ((fixed ++ x) ++ engineArgs j ++ y ++ [z])%list
        with ((fixed ++ (x ++ engineArgs j ++ y)) ++ [z])%list
        by (now rewrite <- !app_assoc);
      set (rest := (x ++ engineArgs j ++ y)%list)
  end.
  unfold commandLine. rewrite join_snoc by (subst fixed; discriminate).
  destruct rest as [| y rest].
  - exists EmptyString. reflexivity.
  - exists (" " ++ join " " (y :: rest))%string.
    subst fixed. unfold join, executable.
    cbn [app String.concat]. rewrite !append_assoc. reflexivity.
Qed.

End MoreAboutLatexmk.

Section MoreAboutExecution.
Context `{P : Platform}.

(** With relative paths on and a working directory set, the last argument,
    whatever it is, loses its first and last code unit and is replaced by
    the quoted relative path of what remains. *)
Lemma execLatexmk_last_argument (directoryPath dir : string)
    (init : list string) (a : string) :
  config_useRelativePaths = true ->
  cwd (latexmkOptions directoryPath) = Some dir ->
  nonEmpty dir = true ->
  execLatexmk directoryPath (init ++ [a])
  = execute directoryPath
      (init ++ [quoted (path_relative dir (slice_1_m1 a))]).
Proof.
  intros Hon Hcwd Hdir. unfold execLatexmk, execute.
  fold (latexmkOptions directoryPath).
  rewrite Hon, Hcwd. cbn [truthy andb]. rewrite Hdir.
  assert (Hargs : exists x rest, (init ++ [a])%list = x :: rest)
    by (destruct init; simpl; eauto).
  destruct Hargs as (x & rest & Hargs).
  rewrite Hargs at 1. rewrite last_last, setLast_snoc. reflexivity.
Qed.

Lemma execute_resolved (directoryPath : string) (args args' : list string)
    (result : ProcessResult) :
  execute directoryPath args = Resolved (args', result) -> args' = args.
Proof.
  unfold execute.
  destruct (executeChildProcess _ _); cbn [andThen]; [| discriminate].
  now intros [= <- _].
Qed.

(** X4. Without arguments: when the last argument is to be made relative,
    the call is rejected before any process is started; otherwise the bare
    executable, followed by a space, is executed. *)
Theorem execLatexmk_no_arguments (directoryPath : string) :
  (config_useRelativePaths = true ->
   truthy (cwd (latexmkOptions directoryPath)) = true ->
   exists e : string, execLatexmk directoryPath [] = Rejected e)
  /\ (config_useRelativePaths && truthy (cwd (latexmkOptions directoryPath))
      = false ->
      execLatexmk directoryPath []
      = andThen (executeChildProcess "latexmk "
                   (latexmkOptions directoryPath))
          (fun result => Resolved ([], result))).
Proof.
  split.
  - intros Hon Hcwd. unfold execLatexmk.
    fold (latexmkOptions directoryPath). rewrite Hon, Hcwd.
    cbn [andb]. destruct (cwd (latexmkOptions directoryPath));
      eexists; reflexivity.
  - intros Hoff. rewrite execLatexmk_unchanged by assumption. reflexivity.
Qed.

(** X5. Whatever [execLatexmk] does to the array it is given, it keeps its
    length and every element but the last. *)
Theorem execLatexmk_touches_last_only (directoryPath : string)
    (args args' : list string) (result : ProcessResult) :
  execLatexmk directoryPath args = Resolved (args', result) ->
  List.length args' = List.length args
  /\ removelast args' = removelast args.
Proof.
  destruct (config_useRelativePaths
            && truthy (cwd (latexmkOptions directoryPath))) eqn:Hrel.
  - apply andb_prop in Hrel as [Hon Hcwd].
    destruct (cwd (latexmkOptions directoryPath)) as [dir |] eqn:Hdir;
      [| discriminate].
    cbn [truthy] in Hcwd.
    destruct args as [| x rest].
    + unfold execLatexmk. fold (latexmkOptions directoryPath).
      rewrite Hon, Hdir. cbn [truthy andb]. rewrite Hcwd. discriminate.
    + destruct (@exists_last _ (x :: rest)) as (init & a & ->);
        [discriminate |].
      rewrite (execLatexmk_last_argument _ dir) by assumption.
      intros Hexec. apply execute_resolved in Hexec. subst args'.
      rewrite !length_app, !removelast_last. now split.
  - rewrite execLatexmk_unchanged by assumption.
    intros Hexec. apply execute_resolved in Hexec. now subst.
Qed.

(** X6. With relative paths on, what is executed for a job are its
    arguments with the source file, the last of them, given relative to the
    working directory; the other arguments are those of [constructArgs]. *)
Theorem job_runs_on_relative_path (j : JobState) (dir : string) :
  config_useRelativePaths = true ->
  cwd (latexmkOptions (getProjectPath j)) = Some dir ->
  nonEmpty dir = true ->
  execLatexmk (getProjectPath j) (constructArgs j)
  = execute (getProjectPath j)
      (removelast (constructArgs j)
       ++ [quoted (path_relative dir (getTexFilePath j))]).
Proof.
  intros Hon Hcwd Hdir.
  assert (Hshape : exists init,
             constructArgs j = (init ++ [quoted (getTexFilePath j)])%list).
  { rewrite constructArgs_parts. unfold trailingArgs.
    eexists. rewrite !app_assoc. reflexivity. }
  destruct Hshape as [init ->].
  rewrite (execLatexmk_last_argument _ dir) by assumption.
  now rewrite slice_quoted, removelast_last.
Qed.

(** X8. The check of the runtime adds at most one entry to the log and
    leaves the earlier entries alone; when the process cannot be run it
    adds none. *)
Theorem checkRuntimeDependencies_log (l : Log) :
  exists added : Log,
    snd (checkRuntimeDependencies l) = (l ++ added)%list
    /\ List.length added <= 1
    /\ (forall e : string,
          fst (checkRuntimeDependencies l) = Rejected e -> added = []).
Proof.
  unfold checkRuntimeDependencies.
  destruct (execLatexmk "." ["-v"]) as [[args result] | e].
  - destruct (negb (statusCode result =? 0)%Z);
      [| destruct (LATEXMK_VERSION_PATTERN (stdout result)) as [version |];
         [destruct (String.ltb version LATEXMK_MINIMUM_VERSION) |]];
      cbn [fst snd];
      (eexists; split; [reflexivity | split; [simpl; lia | discriminate]]).
  - exists []. cbn [fst snd]. rewrite app_nil_r. auto.
Qed.

(** X13. For each of the codes 10, 11, 12, 13 and 20 exactly one error is
    logged, and what the process wrote to its error stream has no part in
    it. *)
Theorem logStatusCode_known_codes (code : Z) (l : Log) :
  In code [10; 11; 12; 13; 20]%Z ->
  exists msg : string,
    forall err : string,
      logStatusCode code err l = (l ++ [mkEntry LError msg])%list.
Proof.
  intros Hcode. simpl in Hcode.
  destruct Hcode as [<- | [<- | [<- | [<- | [<- | []]]]]];
    eexists; intros err; reflexivity.
Qed.

End MoreAboutExecution.

(** X2, on the engine lualatex with the format dvi. *)
Lemma constructArgs_names_engine_witness :
  In ("-pdflatex=" ++ quoted "lualatex")%string
    (@constructArgs (echoPlatform false) (plainJob "lualatex" "dvi")).
Proof.
  destruct (@constructArgs_names_engine (echoPlatform false)
              (plainJob "lualatex" "dvi"))
    as [[Hfamily _] | [(_ & Hformat & _) | (_ & _ & Hnamed)]].
  - discriminate.
  - discriminate Hfamily.
  - discriminate Hformat.
  - exact Hnamed.
Defined.

(** X4, with relative paths on and with relative paths off. *)
Lemma execLatexmk_no_arguments_witness :
  (exists e : string,
     @execLatexmk (echoPlatform true) "/home/me/thesis" [] = Rejected e)
  /\ @execLatexmk (echoPlatform false) "/home/me/thesis" []
     = Resolved ([], mkProcessResult 0 "latexmk " EmptyString).
Proof.
  split.
  - exact (proj1 (@execLatexmk_no_arguments (echoPlatform true)
                    "/home/me/thesis") eq_refl eq_refl).
  - exact (proj2 (@execLatexmk_no_arguments (echoPlatform false)
                    "/home/me/thesis") eq_refl).
Defined.

(** X5, on three arguments with relative paths on. *)
Lemma execLatexmk_touches_last_only_witness :
  List.length ["-cd"; "-pdf"; quoted "main.tex"] = 3
  /\ removelast ["-cd"; "-pdf"; quoted "main.tex"] = ["-cd"; "-pdf"].
Proof.
  exact (@execLatexmk_touches_last_only (echoPlatform true) "/home/me/thesis"
           ["-cd"; "-pdf"; quoted "/home/me/thesis/main.tex"]
           ["-cd"; "-pdf"; quoted "main.tex"] _ eq_refl).
Defined.

(** X6, on a full job of [/home/me/thesis/main.tex]. *)
Lemma job_runs_on_relative_path_witness :
  @execLatexmk (echoPlatform true) "/home/me/thesis"
    (@constructArgs (echoPlatform true) (fullJob "lualatex" "pdf"))
  = @execute (echoPlatform true) "/home/me/thesis"
      (removelast (@constructArgs (echoPlatform true)
                     (fullJob "lualatex" "pdf"))
       ++ [quoted "main.tex"]).
Proof.
  exact (@job_runs_on_relative_path (echoPlatform true)
           (fullJob "lualatex" "pdf") "/home/me/thesis"
           eq_refl eq_refl eq_refl).
Defined.

(** X7, from the directory [.]. *)
Lemma probe_with_relative_paths_witness :
  @execLatexmk (echoPlatform true) "." ["-v"]
  = @execute (echoPlatform true) "." [quoted EmptyString].
Proof.
  exact (@probe_with_relative_paths (echoPlatform true) "."
           eq_refl eq_refl eq_refl).
Defined.

(** X9, on a process that cannot be started. *)
Lemma run_rejected_witness :
  (exists command options,
     @executeChildProcess (brokenPlatform false) command options
     = Rejected "spawn latexmk ENOENT")
  /\ snd (@run (brokenPlatform false) (plainJob "pdflatex" "pdf") []) = [].
Proof.
  exact (@run_rejected (brokenPlatform false) (plainJob "pdflatex" "pdf") []
           "spawn latexmk ENOENT" eq_refl).
Defined.

(** X13, on the code 11. *)
Lemma logStatusCode_known_codes_witness :
  exists msg : string,
    forall err : string,
      @logStatusCode (echoPlatform false) 11 err []
      = [mkEntry LError msg].
Proof.
  apply (@logStatusCode_known_codes (echoPlatform false) 11 []).
  simpl. auto.
Defined.

(* ================================================================== *)
(** * More about the version probe *)
(* ================================================================== *)

Lemma stripPrefixCI_append (p word rest : string) :
  stripPrefixCI p word = Some EmptyString ->
  stripPrefixCI p (word ++ rest) = Some rest.
Proof.
  revert word. induction p as [| a p IH]; intros word; simpl.
  - now intros [= ->].
  - destruct word as [| b word]; [discriminate |]. simpl.
    destruct (foldCase a =? foldCase b)%char; [apply IH | discriminate].
Qed.

Lemma dropWhile_run (f : ascii -> bool) (run : string) (c : ascii)
    (rest : string) :
  allChars f run = true -> f c = false ->
  dropWhile f (run ++ String c rest) = String c rest.
Proof.
  intros Hrun Hc. induction run as [| x run IH]; simpl in *.
  - now rewrite Hc.
  - apply andb_prop in Hrun as [Hx Hrun]. rewrite Hx. now apply IH.
Qed.

Lemma versionAt_complete (word spaces : string) (c : ascii) (rest : string) :
  stripPrefixCI "Version" word = Some EmptyString ->
  nonEmpty spaces = true -> allChars isSpace spaces = true ->
  isSpace c = false ->
  versionAt (word ++ spaces ++ String c rest) <> None.
Proof.
  intros Hword Hsome Hspaces Hc. unfold versionAt.
  rewrite (stripPrefixCI_append _ _ _ Hword).
  destruct spaces as [| x spaces]; [discriminate |].
  cbn [append]. pose proof Hspaces as Hx. simpl in Hx.
  apply andb_prop in Hx as [Hx _]. rewrite Hx.
  change (String x (spaces ++ String c rest))
    with (String x spaces ++ String c rest)%string.
  rewrite (dropWhile_run isSpace _ _ _ Hspaces Hc).
  simpl. rewrite Hc. simpl. discriminate.
Qed.

(** X10. The version that is read is never empty and holds no white space;
    in the output it follows the word [version], in any case, and a run of
    white space; it ends where the output ends or white space begins; and
    no match of the pattern starts further to the left. *)
Theorem LATEXMK_VERSION_PATTERN_sound (output version : string) :
  LATEXMK_VERSION_PATTERN output = Some version ->
  exists before word spaces after : string,
    output = (before ++ word ++ spaces ++ version ++ after)%string
    /\ stripPrefixCI "Version" word = Some EmptyString
    /\ nonEmpty spaces = true /\ allChars isSpace spaces = true
    /\ nonEmpty version = true
    /\ allChars (fun c => negb (isSpace c)) version = true
    /\ (after = EmptyString \/ startsWithSpace after = true)
    /\ (forall b r : string,
          output = (b ++ r)%string ->
          String.length b < String.length before ->
          versionAt r = None).
Proof.
  intros Hmatch.
  destruct (LATEXMK_VERSION_PATTERN_leftmost _ _ Hmatch)
    as (before & rest & -> & Hat & Hleft).
  destruct (versionAt_sound _ _ Hat)
    as (word & spaces & after & -> & Hrest).
  exists before, word, spaces, after. intuition.
Qed.

(** X11. An output has a version exactly when somewhere in it the word
    [version], in any case, is followed by white space and then by
    something else. *)
Theorem LATEXMK_VERSION_PATTERN_found (output : string) :
  LATEXMK_VERSION_PATTERN output <> None <->
  exists (before word spaces : string) (c : ascii) (rest : string),
    output = (before ++ word ++ spaces ++ String c rest)%string
    /\ stripPrefixCI "Version" word = Some EmptyString
    /\ nonEmpty spaces = true /\ allChars isSpace spaces = true
    /\ isSpace c = false.
Proof.
  split.
  - destruct (LATEXMK_VERSION_PATTERN output) as [version |] eqn:Hmatch;
      [intros _ | congruence].
    destruct (LATEXMK_VERSION_PATTERN_leftmost _ _ Hmatch)
      as (before & tail & -> & Hat & _).
    destruct (versionAt_sound _ _ Hat)
      as (word & spaces & after & -> & Hword & Hsome & Hspaces & Hv & Hall & _).
    destruct version as [| c version]; [discriminate |].
    exists before, word, spaces, c, (version ++ after)%string.
    simpl in Hall. apply andb_prop in Hall as [Hc _].
    apply negb_true_iff in Hc. repeat split; assumption.
  - intros (before & word & spaces & c & rest & -> & Hword & Hsome & Hspaces
            & Hc) Hnone.
    apply (versionAt_complete word spaces c rest Hword Hsome Hspaces Hc).
    exact (LATEXMK_VERSION_PATTERN_none _ Hnone before _ eq_refl).
Qed.

(** X11, on an output in capitals with a tab after the word. *)
Lemma LATEXMK_VERSION_PATTERN_found_witness :
  LATEXMK_VERSION_PATTERN
    ("LATEXMK VERSION" ++ String (ascii_of_nat 9) "4.55 (2018)")
  <> None.
Proof.
  apply LATEXMK_VERSION_PATTERN_found.
  exists "LATEXMK ", "VERSION", (String (ascii_of_nat 9) EmptyString),
    "4"%char, ".55 (2018)".
  repeat split.
Defined.

(** X10, on the output of latexmk 4.55. *)
Lemma LATEXMK_VERSION_PATTERN_sound_witness :
  exists before word spaces after : string,
    "Latexmk, John Collins, 17 Jan. 2018. Version 4.55"
    = (before ++ word ++ spaces ++ "4.55" ++ after)%string
    /\ stripPrefixCI "Version" word = Some EmptyString
    /\ nonEmpty spaces = true /\ allChars isSpace spaces = true
    /\ nonEmpty "4.55" = true
    /\ allChars (fun c => negb (isSpace c)) "4.55" = true
    /\ (after = EmptyString \/ startsWithSpace after = true)
    /\ (forall b r : string,
          "Latexmk, John Collins, 17 Jan. 2018. Version 4.55"
          = (b ++ r)%string ->
          String.length b < String.length before ->
          versionAt r = None).
Proof.
  exact (LATEXMK_VERSION_PATTERN_sound
           "Latexmk, John Collins, 17 Jan. 2018. Version 4.55" "4.55"
           eq_refl).
Defined.

Section FirstCharacter.
Context `{P : Platform}.

(** X12. A version that starts with a character before [4] is reported as
    too old, and one that starts with a character after [4] as recent
    enough, whatever follows the character. *)
Theorem version_judged_by_first_character (l : Log) (args : list string)
    (result : ProcessResult) (c : ascii) (rest : string) :
  execLatexmk "." ["-v"] = Resolved (args, result) ->
  statusCode result = 0%Z ->
  LATEXMK_VERSION_PATTERN (stdout result) = Some (String c rest) ->
  ((c <? "4")%char = true ->
   exists msg : string,
     checkRuntimeDependencies l
     = (Resolved tt, (l ++ [mkEntry LWarning msg])%list))
  /\ (("4" <? c)%char = true ->
      exists msg : string,
        checkRuntimeDependencies l
        = (Resolved tt, (l ++ [mkEntry LInfo msg])%list)).
Proof.
  intros Hexec Hcode Hmatch.
  unfold checkRuntimeDependencies. rewrite Hexec, Hcode, Hmatch.
  cbn [Z.eqb negb]. unfold String.ltb, LATEXMK_MINIMUM_VERSION.
  cbn [String.compare]. unfold Ascii.ltb.
  rewrite (Ascii.compare_antisym "4" c).
  destruct (Ascii.compare c "4"); cbn [CompOpp];
    split; intros Hc; try discriminate; eexists; reflexivity.
Qed.

End FirstCharacter.

(** X12, on the versions 25.1 and 5.02. *)
Lemma version_judged_by_first_character_witness :
  (exists msg : string,
     @checkRuntimeDependencies
       (fixedPlatform false
          (Resolved (mkProcessResult 0 "Version 25.1" EmptyString))) []
     = (Resolved tt, [mkEntry LWarning msg]))
  /\ (exists msg : string,
        @checkRuntimeDependencies
          (fixedPlatform false
             (Resolved (mkProcessResult 0 "Version 5.02" EmptyString))) []
        = (Resolved tt, [mkEntry LInfo msg])).
Proof.
  split.
  - exact (proj1 (@version_judged_by_first_character
                    (fixedPlatform false
                       (Resolved
                          (mkProcessResult 0 "Version 25.1" EmptyString)))
                    [] _ _ "2"%char "5.1" eq_refl eq_refl eq_refl) eq_refl).
  - exact (proj2 (@version_judged_by_first_character
                    (fixedPlatform false
                       (Resolved
                          (mkProcessResult 0 "Version 5.02" EmptyString)))
                    [] _ _ "5"%char ".02" eq_refl eq_refl eq_refl) eq_refl).
Defined.

(* ================================================================== *)
(** * The commands and the life cycle of the package *)
(* ================================================================== *)



Section LifeCycle.
Context `{L : LatexClass}.

Lemma bootstrap_registers (s : Main.State) :
  registeredOnce s ->
  registeredOnce (Main.bootstrap s)
  /\ Main.global_latex (Main.bootstrap s) <> None.
Proof.
  unfold registeredOnce, Main.pendingInstances, Main.bootstrap.
  destruct (Main.global_latex s) as [latex |] eqn:Hlatex; intros Hs.
  - rewrite Hlatex. split; [assumption | discriminate].
  - cbn [Main.global_latex Main.disposables]. split; [| discriminate].
    rewrite filter_app, length_app, Hs. reflexivity.
Qed.

Lemma step_registeredOnce (s : Main.State) (c : Main.Call) :
  registeredOnce s -> registeredOnce (Main.step s c).
Proof.
  intros Hs. destruct (bootstrap_registers s Hs) as [Hboot Hset].
  unfold registeredOnce, Main.pendingInstances in *.
  destruct c as [serialized | | statusBar |]; cbn [Main.step].
  - unfold Main.activate.
    destruct (Main.global_latex (Main.bootstrap s)) as [latex |] eqn:Hb;
      [| congruence].
    destruct serialized as [[[restored |]] |];
      cbn [Main.global_latex Main.disposables]; rewrite ?Hb;
      cbn [option_map]; rewrite filter_app, length_app, Hboot; reflexivity.
  - reflexivity.
  - unfold Main.consumeStatusBar.
    destruct (Main.global_latex (Main.bootstrap s)) as [latex |] eqn:Hb;
      [| congruence].
    cbn [Main.global_latex Main.disposables option_map]. exact Hboot.
  - unfold Main.statusBarDisposable.
    destruct (Main.global_latex s) as [latex |] eqn:Hlatex;
      cbn [Main.global_latex Main.disposables]; [exact Hs |].
    now rewrite Hlatex.
Qed.

(** X15. Whatever Atom calls and in whatever order, the package holds at
    most one instance of [Latex]: [global.latex] is set exactly when one
    instance waits in [disposables], and no second one is ever added. *)
Theorem one_instance_at_most (cs : list Main.Call) :
  Main.pendingInstances (Main.calls cs Main.initial)
  = match Main.global_latex (Main.calls cs Main.initial) with
    | Some _ => 1
    | None => 0
    end.
Proof.
  change (registeredOnce (Main.calls cs Main.initial)).
  assert (Hinit : registeredOnce Main.initial) by reflexivity.
  revert Hinit. generalize Main.initial.
  unfold Main.calls.
  induction cs as [| c cs IH]; intros s Hs; cbn [fold_left].
  - exact Hs.
  - apply IH. now apply step_registeredOnce.
Qed.

(** X16. [bootstrap] does its work once: a second call changes nothing. *)
Theorem bootstrap_idempotent (s : Main.State) :
  Main.bootstrap (Main.bootstrap s) = Main.bootstrap s.
Proof.
  unfold Main.bootstrap.
  destruct (Main.global_latex s) as [latex |] eqn:Hlatex.
  - now rewrite Hlatex.
  - reflexivity.
Qed.

(** X17. Once the package is deactivated, the disposable of the status bar
    touches nothing: whatever was called before, [deactivate] followed by
    that disposable leaves the state the module was loaded with. *)
Theorem status_bar_disposed_after_deactivate (cs : list Main.Call) :
  Main.calls (cs ++ [Main.Deactivate; Main.DisposeStatusBar]) Main.initial
  = Main.initial.
Proof. unfold Main.calls. rewrite fold_left_app. reflexivity. Qed.

(** X18. When the status bar is consumed before the package is activated,
    the activation, with or without serialized messages, keeps the instance
    that the status bar was attached to: what [global.latex] holds
    afterwards is that instance, with the messages restored on it when
    there are any, and no second instance is registered. *)
Theorem activate_after_consumeStatusBar (s : Main.State) (statusBar : nat) :
  exists latex : Latex,
    Main.global_latex (Main.consumeStatusBar statusBar s)
    = Some (status_attachStatusBar statusBar latex)
    /\ forall serialized : option Main.Serialized,
         Main.global_latex
           (Main.activate serialized (Main.consumeStatusBar statusBar s))
         = Some match serialized with
                | Some (Main.mkSerialized (Some restored)) =>
                    log_setMessages restored
                      (status_attachStatusBar statusBar latex)
                | _ => status_attachStatusBar statusBar latex
                end
         /\ Main.pendingInstances
              (Main.activate serialized (Main.consumeStatusBar statusBar s))
            = Main.pendingInstances (Main.consumeStatusBar statusBar s).
Proof.
  unfold Main.activate, Main.consumeStatusBar, Main.bootstrap,
    Main.pendingInstances.
  destruct (Main.global_latex s) as [latex |] eqn:Hlatex.
  - exists latex. cbn. rewrite ?Hlatex. cbn. split; [reflexivity |].
    intros [[[restored |]] |]; cbn;
      (split; [reflexivity |]);
      rewrite filter_app, length_app; cbn; lia.
  - exists new_Latex. cbn. split; [reflexivity |].
    intros [[[restored |]] |]; cbn;
      (split; [reflexivity |]);
      rewrite filter_app, length_app; cbn; lia.
Qed.

End LifeCycle.

(* ================================================================== *)
(** * The openers *)
(* ================================================================== *)

Section Openers.
Context `{H : OpenerHost}.

(** X19. Preview is asked to open the quoted file, in the background with
    the flag [-g] and in the foreground without it; taking the flag out
    never touches the path of the file, whatever the path holds. *)
Theorem preview_open_command (filePath : string) :
  PreviewOpener.open filePath
  = if shouldOpenInBackground
    then ("open -g -a Preview.app " ++ quoted filePath)%string
    else ("open -a Preview.app " ++ quoted filePath)%string.
Proof.
  unfold PreviewOpener.open.
  destruct shouldOpenInBackground; reflexivity.
Qed.

(** X20. A file that Skim can open, Preview can open too; a file that
    Okular can open, neither Skim nor Preview can; and a file that is not a
    PDF is left to Preview, which takes it only when it is PostScript. *)
Theorem canOpen_relations (filePath : string) :
  (SkimOpener.canOpen filePath = true ->
   PreviewOpener.canOpen filePath = true)
  /\ (OkularOpener.canOpen filePath = true ->
      SkimOpener.canOpen filePath = false
      /\ PreviewOpener.canOpen filePath = false)
  /\ (isPdfFile filePath = false ->
      SkimOpener.canOpen filePath = false
      /\ OkularOpener.canOpen filePath = false
      /\ PreviewOpener.canOpen filePath
         = ((process_platform =? "darwin")%string && isPsFile filePath)).
Proof.
  unfold SkimOpener.canOpen, OkularOpener.canOpen, PreviewOpener.canOpen.
  split; [| split].
  - intros Hskim.
    apply andb_prop in Hskim as [Hskim _].
    apply andb_prop in Hskim as [-> ->]. reflexivity.
  - intros Hokular.
    apply andb_prop in Hokular as [Hokular _].
    apply andb_prop in Hokular as [Hlinux _].
    apply String.eqb_eq in Hlinux. rewrite Hlinux. split; reflexivity.
  - intros ->. rewrite !andb_false_r. cbn [andb orb]. auto.
Qed.

End Openers.

(** A path that itself holds the flag. *)
Example preview_open_odd_path :
  @PreviewOpener.open (hostOn "darwin" false) "/tmp/a -g b.pdf"
  = ("open -a Preview.app " ++ quoted "/tmp/a -g b.pdf")%string.
Proof. reflexivity. Qed.

(** X20, on a PDF under macOS, on a PDF under Linux, and on a PostScript
    file under macOS. *)
Lemma canOpen_relations_witness :
  @PreviewOpener.canOpen (hostOn "darwin" true) "/tmp/main.pdf" = true
  /\ (@SkimOpener.canOpen (hostOn "linux" true) "/tmp/main.pdf" = false
      /\ @PreviewOpener.canOpen (hostOn "linux" true) "/tmp/main.pdf" = false)
  /\ (@SkimOpener.canOpen (hostOn "darwin" true) "/tmp/main.ps" = false
      /\ @OkularOpener.canOpen (hostOn "darwin" true) "/tmp/main.ps" = false
      /\ @PreviewOpener.canOpen (hostOn "darwin" true) "/tmp/main.ps"
         = (("darwin" =? "darwin")%string && true)).
Proof.
  split; [| split].
  - exact (proj1 (@canOpen_relations (hostOn "darwin" true) "/tmp/main.pdf")
             eq_refl).
  - exact (proj1 (proj2 (@canOpen_relations (hostOn "linux" true)
                           "/tmp/main.pdf"))
             eq_refl).
  - exact (proj2 (proj2 (@canOpen_relations (hostOn "darwin" true)
                           "/tmp/main.ps"))
             eq_refl).
Defined.

(* ================================================================== *)
(** * The argument list across installations and formats *)
(* ================================================================== *)

(** X21, on engines given with their directory: [uplatex] is taken for a
    member of the family, [latex] is not. *)
Lemma LATEX_PATTERN_spec_witness :
  LATEX_PATTERN "/usr/local/bin/uplatex" = true
  /\ ~ ((exists t, "/usr/bin/latex" = ("latex" ++ t)%string)
        \/ (exists t, "/usr/bin/latex" = (t ++ "platex")%string)).
Proof.
  split.
  - apply (proj2 (LATEX_PATTERN_spec "/usr/local/bin/uplatex")).
    right. now exists "/usr/local/bin/u".
  - intros Hmatch.
    apply (proj2 (LATEX_PATTERN_spec "/usr/bin/latex")) in Hmatch.
    discriminate.
Defined.

(** X22. Two installations build the same arguments for a job unless the
    job is in extended build mode: the bundled latexmkrc is all that the
    argument list takes from its surroundings. *)
Theorem constructArgs_platform_independent (P Q : Platform) (j : JobState) :
  getEnableExtendedBuildMode j = false ->
  @constructArgs P j = @constructArgs Q j.
Proof.
  intros Hplain. rewrite !constructArgs_parts. unfold leadingArgs.
  now rewrite Hplain.
Qed.

(** X22, on a plain job, with relative paths off and a process that cannot
    be started on one side. *)
Lemma constructArgs_platform_independent_witness :
  @constructArgs (echoPlatform true) (plainJob "pdflatex" "pdf")
  = @constructArgs (brokenPlatform false) (plainJob "pdflatex" "pdf").
Proof.
  exact (constructArgs_platform_independent (echoPlatform true)
           (brokenPlatform false) (plainJob "pdflatex" "pdf") eq_refl).
Defined.

(** X23. Every output format but pdf is passed on as a flag of its own
    name, whatever the engine. *)
Theorem constructArgs_format_flag `{P : Platform} (j : JobState) :
  getOutputFormat j <> "pdf" ->
  In ("-" ++ getOutputFormat j)%string (constructArgs j).
Proof.
  intros Hformat. apply String.eqb_neq in Hformat.
  rewrite constructArgs_parts. apply in_or_app. right.
  apply in_or_app. left. unfold engineArgs. rewrite Hformat.
  destruct (LATEX_PATTERN (getEngine j)); cbn [andb].
  - right. now left.
  - apply in_or_app. right. now left.
Qed.

(** X23, on the engine xelatex with the format ps. *)
Lemma constructArgs_format_flag_witness :
  In "-ps" (@constructArgs (echoPlatform false) (plainJob "xelatex" "ps")).
Proof.
  apply (@constructArgs_format_flag (echoPlatform false)
           (plainJob "xelatex" "ps")).
  discriminate.
Defined.

(** The bounds of X1 are reached. *)
Example constructArgs_shortest_and_longest :
  List.length (@constructArgs (echoPlatform false) (plainJob "pdflatex" "pdf"))
  = 6
  /\ List.length (@constructArgs (echoPlatform false) (fullJob "platex" "dvi"))
     = 13.
Proof. split; reflexivity. Qed.
